(** * argocd-project-manager: the AppProject destination client and its handlers

    A shallow embedding of [argocd/client.go] and [handlers/destinations.go]:
    the read-modify-write core that adds and removes destinations of an
    ArgoCD AppProject through the Kubernetes dynamic client, and the HTTP
    handlers that call it and write the audit trail.

    Layout: JSON values and the [unstructured] accessors the client uses;
    Go slices with their nil value; the client over an abstract dynamic
    interface that records every request; a reference API server (merge
    patch with an optimistic lock on [metadata.resourceVersion]); the
    handlers; then the theorems. *)

From stdpp Require Import base strings list gmap pretty.
From Stdlib Require Import ZArith Lia Ascii.

Local Open Scope string_scope.
Local Open Scope Z_scope.
Local Open Scope list_scope.

#[local] Set Warnings "-register-all".

(** ** JSON values, as [encoding/json] decodes them into [interface{}] *)

Inductive JSON : Type :=
| JNull
| JBool (b : bool)
| JNum (n : Z)
| JStr (s : string)
| JArr (xs : list JSON)
| JObj (kvs : list (string * JSON)).

(** [map[string]interface{}]: an association list read at its first
    binding of a key. *)
Abbreviation object := (list (string * JSON)) (only parsing).

Fixpoint obj_get (k : string) (m : object) : option JSON :=
  match m with
  | [] => None
  | (k', v) :: rest => if String.eqb k k' then Some v else obj_get k rest
  end.

Fixpoint obj_del (k : string) (m : object) : object :=
  match m with
  | [] => []
  | (k', v) :: rest =>
      if String.eqb k k' then obj_del k rest else (k', v) :: obj_del k rest
  end.

Fixpoint obj_set (k : string) (v : JSON) (m : object) : object :=
  match m with
  | [] => [(k, v)]
  | (k', v') :: rest =>
      if String.eqb k k' then (k, v) :: obj_del k rest
      else (k', v') :: obj_set k v rest
  end.

(** ** Go errors *)

Inductive CtxErr : Type := Canceled | DeadlineExceeded.

(** [context.Context], observed when a request is made: still live, or done
    with [ctx.Err()]. *)
Inductive Context : Type := Live | Done (e : CtxErr).

(** The [error] values that reach this program: an API status
    ([*errors.StatusError], [metav1.StatusReason] is a string), a context
    error returned by the transport, another transport failure, an accessor
    error of package [unstructured], and [fmt.Errorf("...: %w", err)]. *)
Inductive error : Type :=
| StatusError (reason : string) (code : Z)
| CtxError (e : CtxErr)
| TransportError (msg : string)
| AccessorError (path : list string) (expected : string)
| Errorf (msg : string) (wrapped : error).

Inductive result (A : Type) : Type :=
| Ok (a : A)
| Err (e : error).
Arguments Ok {A} a.
Arguments Err {A} e.

(** ** Package [unstructured]: nested field accessors

    The Go functions return [(value, found, err)]; the three shapes that
    occur are a found value, an absent field and an accessor error. *)

Inductive nested (A : Type) : Type :=
| Found (a : A)
| Missing
| Failed (e : error).
Arguments Found {A} a.
Arguments Missing {A}.
Arguments Failed {A} e.

(** [NestedFieldNoCopy]: walks [fields] from [obj]; a nil value on the way is
    "not found", a value that is not a map is an error. [seen] is the
    prefix already walked, reversed, for the error's path. *)
Fixpoint walk (val : JSON) (seen fields : list string) : nested JSON :=
  match fields with
  | [] => Found val
  | field :: rest =>
      match val with
      | JNull => Missing
      | JObj m =>
          match obj_get field m with
          | Some v => walk v (field :: seen) rest
          | None => Missing
          end
      | _ => Failed (AccessorError (rev (field :: seen)) "map[string]interface{}")
      end
  end.

Definition NestedFieldNoCopy (obj : object) (fields : list string) : nested JSON :=
  walk (JObj obj) [] fields.

Definition NestedMap (obj : object) (fields : list string) : nested object :=
  match NestedFieldNoCopy obj fields with
  | Found (JObj m) => Found m
  | Found _ => Failed (AccessorError fields "map[string]interface{}")
  | Missing => Missing
  | Failed e => Failed e
  end.

Definition NestedSlice (obj : object) (fields : list string) : nested (list JSON) :=
  match NestedFieldNoCopy obj fields with
  | Found (JArr xs) => Found xs
  | Found _ => Failed (AccessorError fields "[]interface{}")
  | Missing => Missing
  | Failed e => Failed e
  end.

Definition NestedString (obj : object) (fields : list string) : nested string :=
  match NestedFieldNoCopy obj fields with
  | Found (JStr s) => Found s
  | Found _ => Failed (AccessorError fields "string")
  | Missing => Missing
  | Failed e => Failed e
  end.

(** [getNestedString]: the empty string unless a string is found. *)
Definition getNestedString (obj : object) (fields : list string) : string :=
  match NestedString obj fields with
  | Found s => s
  | _ => ""
  end.

Definition GetName (u : object) : string := getNestedString u ["metadata"; "name"].

Definition GetResourceVersion (u : object) : string :=
  getNestedString u ["metadata"; "resourceVersion"].

(** ** Go slices

    A slice value is nil or holds its elements; [len] and [range] do not
    tell the two apart, [append] never returns nil, and [json.Marshal]
    writes nil as [null]. *)
Definition slice (A : Type) : Type := option (list A).

Definition elems {A} (s : slice A) : list A :=
  match s with
  | Some l => l
  | None => []
  end.

Definition append {A} (s : slice A) (x : A) : slice A := Some (elems s ++ [x]).

Definition len {A} (s : slice A) : Z := Z.of_nat (length (elems s)).

(** ** The dynamic client

    [dynamic.Interface] is a Go interface; the client is written against
    it. Each operation takes the caller's context, the namespace and the
    request, and returns the response together with the next state of
    whatever is behind the interface. The group, version and resource
    ([argoproj.io/v1alpha1], [appprojects]) are fixed by [NewClient]. *)

Inductive PatchType : Type :=
| JSONPatchType
| MergePatchType
| StrategicMergePatchType
| ApplyPatchType.

Class DynamicInterface (St : Type) : Type := {
  dyn_List : Context -> string -> St -> result (list object) * St;
  dyn_Get : Context -> string -> string -> St -> result object * St;
  dyn_Patch : Context -> string -> string -> PatchType -> JSON -> St
              -> result object * St
}.

(** The requests that went through the interface, oldest first. *)
Inductive Call : Type :=
| ListCall (ns : string)
| GetCall (ns name : string)
| PatchCall (ns name : string) (pt : PatchType) (body : JSON).

Record World (St : Type) : Type := mkWorld {
  backend : St;
  calls : list Call
}.
Arguments mkWorld {St} backend calls.
Arguments backend {St} w.
Arguments calls {St} w.

(** State passing for code that talks to the cluster. *)
Definition M (St A : Type) : Type := World St -> A * World St.

Definition ret {St A} (a : A) : M St A := fun w => (a, w).

Definition bind {St A B} (m : M St A) (k : A -> M St B) : M St B :=
  fun w => let '(a, w') := m w in k a w'.

Declare Scope go_scope.
Delimit Scope go_scope with go.
Notation "'call' x <- m ; k" := (bind m (fun x => k))
  (at level 10, x name, m at level 100, k at level 200) : go_scope.

Definition is_patch (c : Call) : bool :=
  match c with
  | PatchCall _ _ _ _ => true
  | _ => false
  end.

(** The patch requests among [cs]: the writes. *)
Definition writes (cs : list Call) : list Call := filter (fun c => is_patch c = true) cs.

(** ** Package [argocd] (argocd/client.go) *)

Module argocd.

Record Destination : Type := {
  Server : string;
  Namespace : string;
  Name : string
}.

Record Project : Type := {
  ProjectName : string;
  DestinationCount : Z;
  Destinations : slice Destination
}.

(** [destMap[key].(string)]: the string at [key], if there is one. *)
Definition string_field (key : string) (m : object) : option string :=
  match obj_get key m with
  | Some (JStr s) => Some s
  | _ => None
  end.

(** The body of the extraction loop for an element that is a map: each
    field is set when it is present as a string, and is empty otherwise. *)
Definition dest_of_map (destMap : object) : Destination :=
  {| Server := default "" (string_field "server" destMap);
     Namespace := default "" (string_field "namespace" destMap);
     Name := default "" (string_field "name" destMap) |}.

(** One iteration of the loop of [extractDestinations]. *)
Definition extract_step (destinations : slice Destination) (d : JSON)
  : slice Destination :=
  match d with
  | JObj destMap => append destinations (dest_of_map destMap)
  | _ => destinations
  end.

Definition extractDestinations (project : object) : result (slice Destination) :=
  match NestedMap project ["spec"] with
  | Failed e => Err (Errorf "failed to get spec" e)
  | Missing => Ok (Some [])
  | Found spec =>
      match NestedSlice spec ["destinations"] with
      | Failed e => Err (Errorf "failed to get destinations" e)
      | Missing => Ok (Some [])
      | Found destinationsRaw => Ok (fold_left extract_step destinationsRaw None)
      end
  end.

Definition destinationsEqual (a b : Destination) : bool :=
  String.eqb (Server a) (Server b) && String.eqb (Namespace a) (Namespace b)
  && String.eqb (Name a) (Name b).

(** The client: its [dynamicClient] is the state behind the interface and
    its [gvr] is fixed, which leaves the namespace. *)
Record Client : Type := { namespace : string }.

(** [json.Marshal] of a [Destination]: fields in declaration order, [name]
    omitted when empty; the document is kept as a JSON value, its strings as
    they are. *)
Definition marshal_destination (d : Destination) : JSON :=
  JObj ([("server", JStr (Server d)); ("namespace", JStr (Namespace d))]
        ++ (if String.eqb (Name d) "" then [] else [("name", JStr (Name d))])).

Definition marshal_destinations (ds : slice Destination) : JSON :=
  match ds with
  | None => JNull
  | Some l => JArr (map marshal_destination l)
  end.

(** One iteration of the loop of [RemoveDestination] over
    [(newDestinations, found)]. *)
Definition remove_step (dest : Destination) (st : slice Destination * bool)
  (existing : Destination) : slice Destination * bool :=
  if destinationsEqual existing dest then (st.1, true)
  else (append st.1 existing, st.2).

Section ClientCode.
Context {St : Type} `{DynamicInterface St}.
Variable c : Client.

Local Open Scope go_scope.

(** [c.dynamicClient.Resource(c.gvr).Namespace(c.namespace)] followed by
    [List], [Get] and [Patch]: the request goes through the interface and is
    recorded. *)
Definition List (ctx : Context) : M St (result (list object)) :=
  fun w =>
    let '(r, b) := dyn_List ctx (namespace c) (backend w) in
    (r, mkWorld b (calls w ++ [ListCall (namespace c)])).

Definition Get (ctx : Context) (name : string) : M St (result object) :=
  fun w =>
    let '(r, b) := dyn_Get ctx (namespace c) name (backend w) in
    (r, mkWorld b (calls w ++ [GetCall (namespace c) name])).

Definition Patch (ctx : Context) (name : string) (pt : PatchType) (body : JSON)
  : M St (result object) :=
  fun w =>
    let '(r, b) := dyn_Patch ctx (namespace c) name pt body (backend w) in
    (r, mkWorld b (calls w ++ [PatchCall (namespace c) name pt body])).

(** One iteration of the loop of [ListProjects]. *)
Definition project_of_item (item : object) : Project :=
  let name := GetName item in
  let destinations :=
    match extractDestinations item with
    | Ok destinations => destinations
    | Err _ => None
    end in
  let destinations :=
    match destinations with
    | None => Some []
    | Some l => Some l
    end in
  {| ProjectName := name;
     DestinationCount := len destinations;
     Destinations := destinations |}.

Definition ListProjects (ctx : Context) : M St (result (slice Project)) :=
  call r <- List ctx;
  match r with
  | Err err => ret (Err err)
  | Ok items =>
      ret (Ok (fold_left (fun projects item => append projects (project_of_item item))
                         items None))
  end.

Definition GetDestinations (ctx : Context) (projectName : string)
  : M St (result (slice Destination * string)) :=
  call r <- Get ctx projectName;
  match r with
  | Err err => ret (Err err)
  | Ok project =>
      let resourceVersion := GetResourceVersion project in
      match extractDestinations project with
      | Err err => ret (Err err)
      | Ok destinations => ret (Ok (destinations, resourceVersion))
      end
  end.

(** The patch document that [patchDestinations] marshals. *)
Definition patch_document (destinations : slice Destination)
  (resourceVersion : string) : JSON :=
  JObj [("metadata", JObj [("resourceVersion", JStr resourceVersion)]);
        ("spec", JObj [("destinations", marshal_destinations destinations)])].

(** [json.Marshal] cannot fail on a document of strings, maps and slices,
    so the only error is the one of the request. *)
Definition patchDestinations (ctx : Context) (projectName : string)
  (destinations : slice Destination) (resourceVersion : string)
  : M St (option error) :=
  call r <- Patch ctx projectName MergePatchType
              (patch_document destinations resourceVersion);
  match r with
  | Err err => ret (Some err)
  | Ok _ => ret None
  end.

Definition AddDestination (ctx : Context) (projectName : string)
  (dest : Destination) : M St (option error) :=
  call r <- GetDestinations ctx projectName;
  match r with
  | Err err => ret (Some err)
  | Ok (destinations, resourceVersion) =>
      if existsb (fun existing => destinationsEqual existing dest)
                 (elems destinations)
      then ret None
      else patchDestinations ctx projectName (append destinations dest)
                             resourceVersion
  end.

Definition RemoveDestination (ctx : Context) (projectName : string)
  (dest : Destination) : M St (option error) :=
  call r <- GetDestinations ctx projectName;
  match r with
  | Err err => ret (Some err)
  | Ok (destinations, resourceVersion) =>
      let '(newDestinations, found) :=
        fold_left (remove_step dest) (elems destinations) (None, false) in
      if negb found then ret None
      else patchDestinations ctx projectName newDestinations resourceVersion
  end.
End ClientCode.

End argocd.
Import argocd.

(** ** A reference API server

    What is behind the dynamic interface in the cluster: the AppProject
    objects by namespace and name, the revision counter that resource
    versions are printed from, and a standing failure (access denied, an
    outage) that every request meets when it is set.

    A merge patch follows RFC 7386: an object patch is merged key by key, a
    [null] member deletes the key, any other patch value replaces the target
    whole (arrays included). A patch whose merged result carries a
    [metadata.resourceVersion] other than the stored one is refused with a
    conflict; an accepted write gets a fresh resource version. *)

Fixpoint merge_patch (target patch : JSON) {struct patch} : JSON :=
  match patch with
  | JObj members =>
      let start := match target with JObj t => t | _ => [] end in
      JObj ((fix members_into (ms : list (string * JSON)) (t : object) : object :=
               match ms with
               | [] => t
               | (k, v) :: rest =>
                   members_into rest
                     (match v with
                      | JNull => obj_del k t
                      | _ => obj_set k (merge_patch (default JNull (obj_get k t)) v) t
                      end)
               end) members start)
  | _ => patch
  end.

Record ApiServer : Type := mkApiServer {
  objects : gmap (string * string) object;
  revision : N;
  fault : option error
}.

(** The map at key [k] of [o]; empty when [k] is absent or is not a map. *)
Definition sub_object (k : string) (o : object) : object :=
  match obj_get k o with
  | Some (JObj m) => m
  | _ => []
  end.

Definition metadata_of (o : object) : object := sub_object "metadata" o.

Definition with_resource_version (rv : string) (o : object) : object :=
  obj_set "metadata" (JObj (obj_set "resourceVersion" (JStr rv) (metadata_of o))) o.

(** What a request meets before it reaches the store: a context that is
    done, or the standing failure. *)
Definition refusal (ctx : Context) (s : ApiServer) : option error :=
  match ctx with
  | Done e => Some (CtxError e)
  | Live => fault s
  end.

Definition api_List (ctx : Context) (ns : string) (s : ApiServer)
  : result (list object) * ApiServer :=
  match refusal ctx s with
  | Some e => (Err e, s)
  | None =>
      (Ok (omap (fun '(k, o) => if String.eqb k.1 ns then Some o else None)
                (map_to_list (objects s))), s)
  end.

Definition api_Get (ctx : Context) (ns name : string) (s : ApiServer)
  : result object * ApiServer :=
  match refusal ctx s with
  | Some e => (Err e, s)
  | None =>
      match objects s !! (ns, name) with
      | Some o => (Ok o, s)
      | None => (Err (StatusError "NotFound" 404), s)
      end
  end.

Definition api_Patch (ctx : Context) (ns name : string) (pt : PatchType)
  (body : JSON) (s : ApiServer) : result object * ApiServer :=
  match refusal ctx s with
  | Some e => (Err e, s)
  | None =>
      match objects s !! (ns, name) with
      | None => (Err (StatusError "NotFound" 404), s)
      | Some o =>
          match pt, merge_patch (JObj o) body with
          | MergePatchType, JObj merged =>
              if String.eqb (GetResourceVersion merged) (GetResourceVersion o)
              then
                let rev := (revision s + 1)%N in
                let stored := with_resource_version (pretty rev) merged in
                (Ok stored,
                 mkApiServer (<[(ns, name) := stored]> (objects s)) rev (fault s))
              else (Err (StatusError "Conflict" 409), s)
          | MergePatchType, _ => (Err (StatusError "BadRequest" 400), s)
          | _, _ => (Err (StatusError "UnsupportedMediaType" 415), s)
          end
      end
  end.

#[export] Instance api_server : DynamicInterface ApiServer := {
  dyn_List := api_List;
  dyn_Get := api_Get;
  dyn_Patch := api_Patch
}.

(** ** Package [errors] of apimachinery: classifying an error

    [reasonAndCodeForError] finds an API status in the error or in what it
    wraps; every other error has the unknown reason and code 0. *)

Definition knownReasons : list string :=
  ["Unauthorized"; "Forbidden"; "NotFound"; "AlreadyExists"; "Conflict"; "Gone";
   "Invalid"; "ServerTimeout"; "Timeout"; "TooManyRequests"; "BadRequest";
   "MethodNotAllowed"; "NotAcceptable"; "RequestEntityTooLarge";
   "UnsupportedMediaType"; "InternalError"; "Expired"; "ServiceUnavailable"].

Fixpoint reasonAndCodeForError (err : error) : string * Z :=
  match err with
  | StatusError reason code => (reason, code)
  | Errorf _ wrapped => reasonAndCodeForError wrapped
  | _ => ("", 0)
  end.

Definition has_reason (want : string) (status : Z) (err : error) : bool :=
  let '(reason, code) := reasonAndCodeForError err in
  String.eqb reason want
  || (negb (existsb (String.eqb reason) knownReasons) && (code =? status)).

Definition IsNotFound : error -> bool := has_reason "NotFound" 404.
Definition IsForbidden : error -> bool := has_reason "Forbidden" 403.
Definition IsConflict : error -> bool := has_reason "Conflict" 409.

(** ** Package [audit]: the entry (audit/logger.go, which follows main.go in
    its file)

    [audit.Entry] with its fields in declaration order. A [time.Time] is
    kept as the text [json.Marshal] prints for it; [zero_time] is that of
    the zero value, which is what the handlers leave in [Timestamp]. The
    logger itself is further down. *)

Record Entry : Type := {
  Timestamp : string;
  Action : string;
  EntryProject : string;
  EntryServer : string;
  EntryNamespace : string;
  EntryName : string;
  Description : string;
  UserAgent : string;
  RemoteAddr : string
}.

Definition zero_time : string := "0001-01-01T00:00:00Z".

(** ** HTTP requests and responses of the handlers *)

(** The decoded JSON body; [ReqProject] is read only by the handlers that
    take the project from the body. *)
Record DestinationRequest : Type := {
  ReqProject : string;
  ReqServer : string;
  ReqNamespace : string;
  ReqName : string;
  ReqDescription : string
}.

(** A request: the [{project}] URL parameter, the body as
    [json.NewDecoder(r.Body).Decode] leaves it ([None] when decoding fails),
    the user agent, the remote address and the request's context. *)
Record Request : Type := {
  url_project : string;
  req_body : option DestinationRequest;
  user_agent : string;
  remote_addr : string;
  req_ctx : Context
}.

Inductive Body : Type :=
| NoBody
| ErrorResponse (message : string)
| DestinationBody (d : Destination).

Record Response : Type := {
  status : Z;
  body : Body
}.

Definition StatusCreated : Z := 201.
Definition StatusNoContent : Z := 204.
Definition StatusBadRequest : Z := 400.
Definition StatusForbidden : Z := 403.
Definition StatusNotFound : Z := 404.
Definition StatusConflict : Z := 409.
Definition StatusInternalServerError : Z := 500.

Definition writeJSONError (st : Z) (message : string) : Response :=
  {| status := st; body := ErrorResponse message |}.

(** The character class of [projectNameRegex], [^[a-zA-Z0-9_-]+$]. *)
Definition name_char (a : ascii) : bool :=
  let n := N_of_ascii a in
  ((48 <=? n) && (n <=? 57) || (65 <=? n) && (n <=? 90)
   || (97 <=? n) && (n <=? 122) || (n =? 95) || (n =? 45))%N.

Fixpoint all_name_chars (s : string) : bool :=
  match s with
  | EmptyString => true
  | String a rest => name_char a && all_name_chars rest
  end.

Definition projectNameRegex_MatchString (s : string) : bool :=
  negb (String.eqb s "") && all_name_chars s.

(** The validators write an error response and return false, or return
    true: here the response written, if any. *)
Definition validateProjectName (project : string) : option Response :=
  if String.eqb project "" then
    Some (writeJSONError StatusBadRequest "project name is required")
  else if negb (projectNameRegex_MatchString project) then
    Some (writeJSONError StatusBadRequest
            "project name must contain only alphanumeric characters, dashes, and underscores")
  else None.

Definition handleK8sError (err : error) (project : string) : Response :=
  if IsNotFound err then
    writeJSONError StatusNotFound ("project not found: " +:+ project)
  else if IsForbidden err then
    writeJSONError StatusForbidden ("access denied to project: " +:+ project)
  else writeJSONError StatusInternalServerError "internal server error".

(** What a handler runs against: the cluster behind the client, the audit
    logger, and the entries passed to [Log] so far. *)
Record Service (St Lg : Type) : Type := mkService {
  cluster : World St;
  logger : Lg;
  logged : list Entry
}.
Arguments mkService {St Lg} cluster logger logged.
Arguments cluster {St Lg} s.
Arguments logger {St Lg} s.
Arguments logged {St Lg} s.

Definition destination_of (req : DestinationRequest) : Destination :=
  {| Server := ReqServer req; Namespace := ReqNamespace req; Name := ReqName req |}.

Definition entry_of (action project : string) (req : DestinationRequest)
  (r : Request) : Entry :=
  {| Timestamp := zero_time;
     Action := action;
     EntryProject := project;
     EntryServer := ReqServer req;
     EntryNamespace := ReqNamespace req;
     EntryName := ReqName req;
     Description := ReqDescription req;
     UserAgent := user_agent r;
     RemoteAddr := remote_addr r |}.

(** The checks on server, namespace and description that both revisions of
    [validateDestinationRequest] make, in their order. *)
Definition validate_fields (req : DestinationRequest) : option Response :=
  if String.eqb (ReqServer req) "" then
    Some (writeJSONError StatusBadRequest "server is required")
  else if String.eqb (ReqNamespace req) "" then
    Some (writeJSONError StatusBadRequest "namespace is required")
  else if String.eqb (ReqServer req) "*" then
    Some (writeJSONError StatusBadRequest "wildcard server (*) is not allowed")
  else if String.eqb (ReqNamespace req) "*" then
    Some (writeJSONError StatusBadRequest "wildcard namespace (*) is not allowed")
  else if String.eqb (ReqDescription req) "" then
    Some (writeJSONError StatusBadRequest
            "description is required (explain why this change is being made)")
  else None.

Section MutateAndAudit.
Context {St : Type} `{DynamicInterface St}.
Context {Lg : Type}.
(** [auditLogger.Log]: its error is printed and otherwise ignored. *)
Variable audit_Log : Entry -> Lg -> option error * Lg.

(** The end of every mutation handler, from the call into the client on:
    [mutate] is the client's operation, [action] the audit action and
    [success] the response for a nil error. The [log.Printf] lines are
    left out. *)
Definition mutate_and_audit
  (mutate : Context -> string -> Destination -> M St (option error))
  (action project : string) (req : DestinationRequest) (success : Response)
  (r : Request) (sv : Service St Lg) : Response * Service St Lg :=
  let dest := destination_of req in
  let '(err, w) := mutate (req_ctx r) project dest (cluster sv) in
  match err with
  | Some err =>
      if IsConflict err then
        (writeJSONError StatusConflict "resource was modified, please retry",
         mkService w (logger sv) (logged sv))
      else (handleK8sError err project, mkService w (logger sv) (logged sv))
  | None =>
      let entry := entry_of action project req r in
      let '(_, lg) := audit_Log entry (logger sv) in
      (success, mkService w lg (logged sv ++ [entry]))
  end.
End MutateAndAudit.

(** ** Package [handlers] (handlers/destinations.go): the project is the
    [{project}] URL parameter *)

Module handlers.
Section Code.
Context {St : Type} `{DynamicInterface St}.
Context {Lg : Type}.
Variable audit_Log : Entry -> Lg -> option error * Lg.
Variable client : Client.

Definition validateDestinationRequest (req : DestinationRequest)
  : option Response := validate_fields req.

(** POST /projects/{project}/destinations *)
Definition AddDestination (r : Request) (sv : Service St Lg)
  : Response * Service St Lg :=
  let project := url_project r in
  match validateProjectName project with
  | Some resp => (resp, sv)
  | None =>
      match req_body r with
      | None => (writeJSONError StatusBadRequest "invalid JSON body", sv)
      | Some req =>
          match validateDestinationRequest req with
          | Some resp => (resp, sv)
          | None =>
              mutate_and_audit audit_Log (argocd.AddDestination client)
                "add" project req
                {| status := StatusCreated;
                   body := DestinationBody (destination_of req) |}
                r sv
          end
      end
  end.

(** DELETE /projects/{project}/destinations *)
Definition RemoveDestination (r : Request) (sv : Service St Lg)
  : Response * Service St Lg :=
  let project := url_project r in
  match validateProjectName project with
  | Some resp => (resp, sv)
  | None =>
      match req_body r with
      | None => (writeJSONError StatusBadRequest "invalid JSON body", sv)
      | Some req =>
          match validateDestinationRequest req with
          | Some resp => (resp, sv)
          | None =>
              mutate_and_audit audit_Log (argocd.RemoveDestination client)
                "remove" project req
                {| status := StatusNoContent; body := NoBody |}
                r sv
          end
      end
  end.
End Code.
End handlers.

(** ** Package [handlers], the revision that reads the project from the
    request body (POST and DELETE /destinations) *)

Module handlers_body.
Section Code.
Context {St : Type} `{DynamicInterface St}.
Context {Lg : Type}.
Variable audit_Log : Entry -> Lg -> option error * Lg.
Variable client : Client.

Definition validateDestinationRequest (req : DestinationRequest)
  : option Response :=
  match validateProjectName (ReqProject req) with
  | Some resp => Some resp
  | None => validate_fields req
  end.

Definition AddDestination (r : Request) (sv : Service St Lg)
  : Response * Service St Lg :=
  match req_body r with
  | None => (writeJSONError StatusBadRequest "invalid JSON body", sv)
  | Some req =>
      match validateDestinationRequest req with
      | Some resp => (resp, sv)
      | None =>
          mutate_and_audit audit_Log (argocd.AddDestination client)
            "add" (ReqProject req) req
            {| status := StatusCreated;
               body := DestinationBody (destination_of req) |}
            r sv
      end
  end.

Definition RemoveDestination (r : Request) (sv : Service St Lg)
  : Response * Service St Lg :=
  match req_body r with
  | None => (writeJSONError StatusBadRequest "invalid JSON body", sv)
  | Some req =>
      match validateDestinationRequest req with
      | Some resp => (resp, sv)
      | None =>
          mutate_and_audit audit_Log (argocd.RemoveDestination client)
            "remove" (ReqProject req) req
            {| status := StatusNoContent; body := NoBody |}
            r sv
      end
  end.
End Code.
End handlers_body.

(** ** Vocabulary of the statements *)

(** [d.(map[string]interface{})]: the map in an element, if it is one. *)
Definition as_map (d : JSON) : option object :=
  match d with
  | JObj destMap => Some destMap
  | _ => None
  end.

(** Some element of [l] is structurally equal to [dest]. *)
Definition present (dest : Destination) (l : list Destination) : bool :=
  existsb (fun existing => destinationsEqual existing dest) l.

(** The elements of [l] that are not structurally equal to [dest], in the
    order of [l]. *)
Definition without (dest : Destination) (l : list Destination) : list Destination :=
  List.filter (fun existing => negb (destinationsEqual existing dest)) l.

(** The slice [RemoveDestination] builds from the kept elements: it stays
    nil when nothing is appended. *)
Definition kept_slice (kept : list Destination) : slice Destination :=
  match kept with
  | [] => None
  | _ => Some kept
  end.

(** The [error] a request's result leaves. *)
Definition error_of {A} (r : result A) : option error :=
  match r with
  | Ok _ => None
  | Err e => Some e
  end.

(** [op] run [n] times in sequence, with the values it returned. *)
Fixpoint repeat_call {St A} (op : M St A) (n : nat) : M St (list A) :=
  match n with
  | O => ret []
  | S n' => bind op (fun a => bind (repeat_call op n') (fun rest => ret (a :: rest)))
  end.

Inductive Mutation : Type := Add | Remove.

Definition run_mutation {St} `{DynamicInterface St} (c : Client) (m : Mutation)
  : Context -> string -> Destination -> M St (option error) :=
  match m with
  | Add => AddDestination c
  | Remove => RemoveDestination c
  end.

(** The object that merging [patch_document nd rv] into [o] gives. *)
Definition patched (o : object) (nd : slice Destination) (rv : string) : object :=
  let o1 :=
    obj_set "metadata"
      (JObj (obj_set "resourceVersion" (JStr rv) (sub_object "metadata" o))) o in
  obj_set "spec"
    (JObj (match nd with
           | None => obj_del "destinations" (sub_object "spec" o1)
           | Some l =>
               obj_set "destinations" (JArr (map marshal_destination l))
                 (sub_object "spec" o1)
           end)) o1.

(** The four mutation handlers, uniformly. *)
Inductive Handler : Type := UrlAdd | UrlRemove | BodyAdd | BodyRemove.

Definition run_handler {St} `{DynamicInterface St} {Lg}
  (audit_Log : Entry -> Lg -> option error * Lg) (client : Client) (h : Handler)
  : Request -> Service St Lg -> Response * Service St Lg :=
  match h with
  | UrlAdd => handlers.AddDestination audit_Log client
  | UrlRemove => handlers.RemoveDestination audit_Log client
  | BodyAdd => handlers_body.AddDestination audit_Log client
  | BodyRemove => handlers_body.RemoveDestination audit_Log client
  end.

Definition handler_mutation (h : Handler) : Mutation :=
  match h with
  | UrlAdd | BodyAdd => Add
  | UrlRemove | BodyRemove => Remove
  end.

Definition handler_action (h : Handler) : string :=
  match h with
  | UrlAdd | BodyAdd => "add"
  | UrlRemove | BodyRemove => "remove"
  end.

Definition handler_project (h : Handler) (r : Request) (req : DestinationRequest)
  : string :=
  match h with
  | UrlAdd | UrlRemove => url_project r
  | BodyAdd | BodyRemove => ReqProject req
  end.

Definition no_response (o : option Response) : bool :=
  match o with
  | None => true
  | Some _ => false
  end.

(** The audit entries a request is expected to add: one, when the body
    decodes, the validations pass and the client returns a nil error. *)
Definition audited {St} `{DynamicInterface St} {Lg} (client : Client) (h : Handler)
  (r : Request) (sv : Service St Lg) : list Entry :=
  match req_body r with
  | None => []
  | Some req =>
      let project := handler_project h r req in
      if no_response (validateProjectName project)
         && no_response (validate_fields req)
      then
        match (run_mutation client (handler_mutation h) (req_ctx r) project
                 (destination_of req) (cluster sv)).1 with
        | None => [entry_of (handler_action h) project req r]
        | Some _ => []
        end
      else []
  end.

(** ** A sample cluster

    The record of the spec's example: one destination, version [v1]. *)

Definition demo_client : Client := {| namespace := "argocd" |}.

Definition dest_a : Destination := {| Server := "a"; Namespace := "ns1"; Name := "" |}.
Definition dest_b : Destination := {| Server := "b"; Namespace := "ns2"; Name := "" |}.

Definition demo_project : object :=
  [("metadata", JObj [("name", JStr "demo"); ("resourceVersion", JStr "v1")]);
   ("spec", JObj [("description", JStr "demo project");
                  ("destinations",
                   JArr [JObj [("server", JStr "a"); ("namespace", JStr "ns1")]])])].

Definition demo_server : ApiServer :=
  mkApiServer {[ ("argocd", "demo") := demo_project ]} 1 None.

Definition demo_world : World ApiServer := mkWorld demo_server [].

(** A record whose destinations field is a string. *)
Definition malformed_project : object :=
  [("metadata", JObj [("name", JStr "demo"); ("resourceVersion", JStr "v1")]);
   ("spec", JObj [("destinations", JStr "everywhere")])].

Definition malformed_world : World ApiServer :=
  mkWorld (mkApiServer {[ ("argocd", "demo") := malformed_project ]} 1 None) [].

(** A request to add the destination that the sample record already has,
    with a logger that never fails. *)
Definition demo_request : Request :=
  {| url_project := "demo";
     req_body := Some {| ReqProject := "demo"; ReqServer := "a";
                         ReqNamespace := "ns1"; ReqName := "";
                         ReqDescription := "staging rollout" |};
     user_agent := "curl/8.5.0";
     remote_addr := "10.0.0.7:51234";
     req_ctx := Live |}.


Definition quiet_Log (e : Entry) (lg : unit) : option error * unit := (None, lg).

Definition demo_service : Service ApiServer unit := mkService demo_world tt [].


(** ** Package [audit]: the logger (audit/logger.go, which follows main.go
    in its file)

    The logger that [main] hands to the handlers. Its file is the list of
    the lines written, each one marshalled entry; [now] is what
    [time.Now().UTC()] reads, as the text [json.Marshal] prints for it;
    [write_error] is the error the next write meets, if any, and a write
    that fails is taken to leave no bytes. The mutex is not modelled: calls
    are taken one at a time. *)

Module audit.

Record Logger : Type := mkLogger {
  file : list JSON;
  now : string;
  write_error : option error
}.

Definition byte_in (lo hi : N) (a : ascii) : bool :=
  ((lo <=? N_of_ascii a) && (N_of_ascii a <=? hi))%N.

(** A continuation byte, 80..BF. *)
Definition cont (a : ascii) : bool := byte_in 128 191 a.

(** The first two bytes of a three-byte and of a four-byte encoding, as
    [unicode/utf8] accepts them: no overlong form, no surrogate, nothing
    above U+10FFFF. *)
Definition three (b0 b1 : ascii) : bool :=
  byte_in 224 224 b0 && byte_in 160 191 b1
  || byte_in 225 236 b0 && cont b1
  || byte_in 237 237 b0 && byte_in 128 159 b1
  || byte_in 238 239 b0 && cont b1.

Definition four (b0 b1 : ascii) : bool :=
  byte_in 240 240 b0 && byte_in 144 191 b1
  || byte_in 241 243 b0 && cont b1
  || byte_in 244 244 b0 && byte_in 128 143 b1.

(** U+FFFD, encoded: EF BF BD. *)
Definition replacement : string :=
  String (ascii_of_N 239) (String (ascii_of_N 191) (String (ascii_of_N 189) "")).

(** The string [encoding/json] writes for a Go string: valid UTF-8 is kept,
    and each byte that does not start a valid encoding becomes U+FFFD.
    Escaping is part of the text of the line, not of its value. *)
Fixpoint json_string (s : string) : string :=
  match s with
  | EmptyString => EmptyString
  | String b0 rest =>
      if (N_of_ascii b0 <? 128)%N then String b0 (json_string rest)
      else
        match rest with
        | EmptyString => replacement
        | String b1 rest1 =>
            if byte_in 194 223 b0 && cont b1
            then String b0 (String b1 (json_string rest1))
            else
              match rest1 with
              | EmptyString => replacement +:+ json_string rest
              | String b2 rest2 =>
                  if three b0 b1 && cont b2
                  then String b0 (String b1 (String b2 (json_string rest2)))
                  else
                    match rest2 with
                    | EmptyString => replacement +:+ json_string rest
                    | String b3 rest3 =>
                        if four b0 b1 && cont b2 && cont b3
                        then String b0 (String b1 (String b2 (String b3
                                                    (json_string rest3))))
                        else replacement +:+ json_string rest
                    end
              end
        end
  end.

(** A string field with [omitempty]: left out when the field is empty. *)
Definition omitempty (key value : string) : list (string * JSON) :=
  if String.eqb value "" then [] else [(key, JStr (json_string value))].

(** [entry.Timestamp = ts] *)
Definition stamp (ts : string) (entry : Entry) : Entry :=
  {| Timestamp := ts;
     Action := Action entry;
     EntryProject := EntryProject entry;
     EntryServer := EntryServer entry;
     EntryNamespace := EntryNamespace entry;
     EntryName := EntryName entry;
     Description := Description entry;
     UserAgent := UserAgent entry;
     RemoteAddr := RemoteAddr entry |}.

(** [json.Marshal] of an entry: the fields in declaration order, the time
    as [time.Time] marshals itself. It cannot fail for a time that
    [time.Now] returns. *)
Definition marshal (entry : Entry) : JSON :=
  JObj ([("timestamp", JStr (Timestamp entry));
         ("action", JStr (json_string (Action entry)));
         ("project", JStr (json_string (EntryProject entry)));
         ("server", JStr (json_string (EntryServer entry)));
         ("namespace", JStr (json_string (EntryNamespace entry)))]
        ++ omitempty "name" (EntryName entry)
        ++ [("description", JStr (json_string (Description entry)))]
        ++ omitempty "user_agent" (UserAgent entry)
        ++ omitempty "remote_addr" (RemoteAddr entry)).

(** The line for [entry] when the clock reads [ts]: stamped, then
    marshalled. *)
Definition marshal_entry (ts : string) (entry : Entry) : JSON :=
  marshal (stamp ts entry).

Definition Log (entry : Entry) (l : Logger) : option error * Logger :=
  let entry := stamp (now l) entry in
  let data := marshal entry in
  match write_error l with
  | Some err => (Some (Errorf "failed to write audit entry" err), l)
  | None => (None, mkLogger (file l ++ [data]) (now l) (write_error l))
  end.

End audit.

(** ** The list handlers *)

Definition StatusOK : Z := 200.
Definition StatusUnauthorized : Z := 401.

(** What a list handler writes: an error response, or [writeJSON] of a
    status and a payload. *)
Inductive Reply (A : Type) : Type :=
| Refused (resp : Response)
| Served (st : Z) (payload : A).
Arguments Refused {A} resp.
Arguments Served {A} st payload.

(** [if x == nil { x = []T{} }] *)
Definition never_nil {A} (x : slice A) : slice A :=
  match x with
  | None => Some []
  | Some l => Some l
  end.

(** A request to a list handler: the [{project}] URL parameter, the
    project of the decoded [ListDestinationsRequest] body ([None] when
    decoding fails) and the request's context. *)
Record ListRequest : Type := {
  list_url_project : string;
  list_body_project : option string;
  list_ctx : Context
}.

Module handlers_list.
Section Code.
Context {St : Type} `{DynamicInterface St}.
Context {Lg : Type}.
Variable client : Client.

(** handlers/destinations.go: GET /projects/{project}/destinations *)
Definition ListDestinations (r : ListRequest) (sv : Service St Lg)
  : Reply (slice Destination) * Service St Lg :=
  let project := list_url_project r in
  match validateProjectName project with
  | Some resp => (Refused resp, sv)
  | None =>
      let '(res, w) := argocd.GetDestinations client (list_ctx r) project (cluster sv) in
      match res with
      | Err err =>
          (Refused (handleK8sError err project), mkService w (logger sv) (logged sv))
      | Ok (destinations, _) =>
          (Served StatusOK (never_nil destinations),
           mkService w (logger sv) (logged sv))
      end
  end.

(** The revision with the project in the body: POST /destinations/list *)
Definition ListDestinations_body (r : ListRequest) (sv : Service St Lg)
  : Reply (slice Destination) * Service St Lg :=
  match list_body_project r with
  | None => (Refused (writeJSONError StatusBadRequest "invalid JSON body"), sv)
  | Some project =>
      match validateProjectName project with
      | Some resp => (Refused resp, sv)
      | None =>
          let '(res, w) :=
            argocd.GetDestinations client (list_ctx r) project (cluster sv) in
          match res with
          | Err err =>
              (Refused (handleK8sError err project),
               mkService w (logger sv) (logged sv))
          | Ok (destinations, _) =>
              (Served StatusOK (never_nil destinations),
               mkService w (logger sv) (logged sv))
          end
      end
  end.

(** The same revision: GET /projects *)
Definition ListProjects (ctx : Context) (sv : Service St Lg)
  : Reply (slice Project) * Service St Lg :=
  let '(res, w) := argocd.ListProjects client ctx (cluster sv) in
  match res with
  | Err err =>
      (Refused (writeJSONError StatusInternalServerError "failed to list projects"),
       mkService w (logger sv) (logged sv))
  | Ok projects =>
      (Served StatusOK (never_nil projects), mkService w (logger sv) (logged sv))
  end.
End Code.
End handlers_list.

(** ** Package [middleware] (middleware/auth.go) *)

Module middleware.

(** [APIKeyAuth apiKey next], given [r.Header.Get("X-API-Key")] (empty when
    the header is absent): its own 401, or what [next] does. *)
Definition APIKeyAuth {R S T : Type} (apiKey : string) (next : R -> S -> T * S)
  (providedKey : string) (r : R) (s : S) : (Response + T) * S :=
  if String.eqb providedKey "" then
    (inl (writeJSONError StatusUnauthorized "missing X-API-Key header"), s)
  else if negb (String.eqb providedKey apiKey) then
    (inl (writeJSONError StatusUnauthorized "invalid API key"), s)
  else let '(t, s') := next r s in (inr t, s').

End middleware.

(** ** Package [main] (main.go): the configuration read from the environment *)

Module main.

Record Config : Type := {
  apiKey : string;
  namespace : string;
  port : string;
  auditLogPath : string
}.

(** [os.Getenv] with a default for the empty string. *)
Definition getenv_or (getenv : string -> string) (key fallback : string) : string :=
  if String.eqb (getenv key) "" then fallback else getenv key.

(** The configuration [main] goes on with; [None] when it stops at
    [log.Fatal]. *)
Definition config (getenv : string -> string) : option Config :=
  if String.eqb (getenv "API_KEY") "" then None
  else Some {| apiKey := getenv "API_KEY";
               namespace := getenv_or getenv "ARGOCD_NAMESPACE" "argocd";
               port := getenv_or getenv "PORT" "8080";
               auditLogPath := getenv_or getenv "AUDIT_LOG_PATH"
                                 "/var/log/audit/audit.log" |}.

End main.

(** ** More vocabulary *)

(** The request decodes and passes every validation of handler [h]. *)
Definition request_valid (h : Handler) (r : Request) : bool :=
  match req_body r with
  | None => false
  | Some req =>
      no_response (validateProjectName (handler_project h r req))
      && no_response (validate_fields req)
  end.

(** The response of handler [h] for a nil error. *)
Definition success_response (h : Handler) (req : DestinationRequest) : Response :=
  match handler_mutation h with
  | Add => {| status := StatusCreated; body := DestinationBody (destination_of req) |}
  | Remove => {| status := StatusNoContent; body := NoBody |}
  end.

(** The two handlers that list destinations, uniformly: the project comes
    from the body or from the URL. *)
Definition run_list {St} `{DynamicInterface St} {Lg} (by_body : bool)
  (client : Client)
  : ListRequest -> Service St Lg -> Reply (slice Destination) * Service St Lg :=
  if by_body then handlers_list.ListDestinations_body client
  else handlers_list.ListDestinations client.

Definition list_project (by_body : bool) (r : ListRequest) : option string :=
  if by_body then list_body_project r else Some (list_url_project r).

(** The strings of [e] are valid UTF-8: the encoder writes them as they
    are. *)
Definition entry_written_as_is (e : Entry) : Prop :=
  audit.json_string (Action e) = Action e
  /\ audit.json_string (EntryProject e) = EntryProject e
  /\ audit.json_string (EntryServer e) = EntryServer e
  /\ audit.json_string (EntryNamespace e) = EntryNamespace e
  /\ audit.json_string (EntryName e) = EntryName e
  /\ audit.json_string (Description e) = Description e
  /\ audit.json_string (UserAgent e) = UserAgent e
  /\ audit.json_string (RemoteAddr e) = RemoteAddr e.

(** Two entries that differ in the name alone, and two user agents that
    are not valid UTF-8. *)
Definition unnamed_entry : Entry :=
  {| Timestamp := zero_time; Action := "add"; EntryProject := "demo";
     EntryServer := "a"; EntryNamespace := "ns1"; EntryName := "";
     Description := "staging rollout"; UserAgent := "curl/8.5.0";
     RemoteAddr := "10.0.0.7:51234" |}.

Definition named_entry : Entry :=
  {| Timestamp := zero_time; Action := "add"; EntryProject := "demo";
     EntryServer := "a"; EntryNamespace := "ns1"; EntryName := "staging";
     Description := "staging rollout"; UserAgent := "curl/8.5.0";
     RemoteAddr := "10.0.0.7:51234" |}.

Definition agent_entry (b : N) : Entry :=
  {| Timestamp := zero_time; Action := "add"; EntryProject := "demo";
     EntryServer := "a"; EntryNamespace := "ns1"; EntryName := "";
     Description := "staging rollout";
     UserAgent := String (ascii_of_N b) "curl";
     RemoteAddr := "10.0.0.7:51234" |}.

(** A request to remove the sample destination, from a client whose user
    agent starts with a byte that is not valid UTF-8. *)
Definition odd_agent_request : Request :=
  {| url_project := "demo";
     req_body := Some {| ReqProject := "demo"; ReqServer := "a";
                         ReqNamespace := "ns1"; ReqName := "";
                         ReqDescription := "decommissioned" |};
     user_agent := String (ascii_of_N 255) "curl";
     remote_addr := "10.0.0.7:51234";
     req_ctx := Live |}.

(** A record with three destinations, the third one named. *)
Definition dest_c : Destination :=
  {| Server := "c"; Namespace := "ns3"; Name := "third" |}.

Definition trio_project : object :=
  [("metadata", JObj [("name", JStr "trio"); ("resourceVersion", JStr "41")]);
   ("spec",
    JObj [("destinations",
           JArr [JObj [("server", JStr "a"); ("namespace", JStr "ns1")];
                 JObj [("server", JStr "b"); ("namespace", JStr "ns2")];
                 JObj [("server", JStr "c"); ("namespace", JStr "ns3");
                       ("name", JStr "third")]])])].

Definition trio_server : ApiServer :=
  mkApiServer {[ ("argocd", "trio") := trio_project ]} 41 None.

Definition trio_world : World ApiServer := mkWorld trio_server [].

(** Following the spec's words (its data model: a destination has a
    [server] and a [namespace], strings, and an optional [name], a string):
    the raw elements that are well-formed destination objects. This is the
    spec's notion, not a test the code makes. *)
Definition spec_well_formed (d : JSON) : bool :=
  match d with
  | JObj m =>
      match obj_get "server" m, obj_get "namespace" m, obj_get "name" m with
      | Some (JStr _), Some (JStr _), (None | Some (JStr _)) => true
      | _, _, _ => false
      end
  | _ => false
  end.

(** Elements that are maps and are not destinations. *)
Definition stray_maps : list JSON :=
  [JObj [];
   JObj [("server", JNum 5); ("namespace", JArr [])];
   JObj [("foo", JStr "bar")]].

Definition stray_project : object :=
  [("spec", JObj [("destinations", JArr stray_maps)])].

Definition empty_destination : Destination :=
  {| Server := ""; Namespace := ""; Name := "" |}.

(** An environment with the key and the port set. *)
Definition demo_env (key : string) : string :=
  if String.eqb key "API_KEY" then "s3cret"
  else if String.eqb key "PORT" then "9090" else "".

(** A logger whose writes succeed, and one whose disk is full. *)
Definition demo_logger : audit.Logger :=
  audit.mkLogger [] "2024-01-15T10:30:00Z" None.

Definition full_disk_logger : audit.Logger :=
  audit.mkLogger [] "2024-01-15T10:30:00Z"
    (Some (TransportError "no space left on device")).

Definition logging_service : Service ApiServer audit.Logger :=
  mkService demo_world demo_logger [].

Definition full_disk_service : Service ApiServer audit.Logger :=
  mkService demo_world full_disk_logger [].

(** A request to add a destination the sample record does not have. *)
Definition new_request : Request :=
  {| url_project := "demo";
     req_body := Some {| ReqProject := "demo"; ReqServer := "b";
                         ReqNamespace := "ns2"; ReqName := "";
                         ReqDescription := "second cluster" |};
     user_agent := "curl/8.5.0";
     remote_addr := "10.0.0.7:51234";
     req_ctx := Live |}.

(** A request for a wildcard namespace. *)
Definition wildcard_request : Request :=
  {| url_project := "demo";
     req_body := Some {| ReqProject := "demo"; ReqServer := "b";
                         ReqNamespace := "*"; ReqName := "";
                         ReqDescription := "everything" |};
     user_agent := "curl/8.5.0";
     remote_addr := "10.0.0.7:51234";
     req_ctx := Live |}.

Definition malformed_service : Service ApiServer unit :=
  mkService malformed_world tt [].

(** * Properties *)

(** ** Objects *)

Lemma obj_get_del_eq k m : obj_get k (obj_del k m) = None.
Proof.
  induction m as [|[k' v] m IH]; simpl; [done|].
  destruct (String.eqb k k') eqn:E; simpl; [done|]. by rewrite E.
Qed.

Lemma obj_get_del_ne k k' m : k <> k' -> obj_get k' (obj_del k m) = obj_get k' m.
Proof.
  intros Hne. induction m as [|[k0 v] m IH]; simpl; [done|].
  destruct (String.eqb k k0) eqn:E; simpl.
  - apply String.eqb_eq in E. subst k0.
    destruct (String.eqb k' k) eqn:E'; [|done].
    apply String.eqb_eq in E'. congruence.
  - by rewrite IH.
Qed.

Lemma obj_get_set_eq k v m : obj_get k (obj_set k v m) = Some v.
Proof.
  induction m as [|[k' v'] m IH]; simpl.
  - by rewrite String.eqb_refl.
  - destruct (String.eqb k k') eqn:E; simpl.
    + by rewrite String.eqb_refl.
    + by rewrite E.
Qed.

Lemma obj_get_set_ne k k' v m : k <> k' -> obj_get k' (obj_set k v m) = obj_get k' m.
Proof.
  intros Hne. induction m as [|[k0 v0] m IH]; simpl.
  - destruct (String.eqb k' k) eqn:E; [|done].
    apply String.eqb_eq in E. congruence.
  - destruct (String.eqb k k0) eqn:E; simpl.
    + apply String.eqb_eq in E. subst k0.
      destruct (String.eqb k' k) eqn:E'.
      * apply String.eqb_eq in E'. congruence.
      * by apply obj_get_del_ne.
    + by rewrite IH.
Qed.

(** ** Extraction *)

Lemma extract_loop_elems raw acc :
  elems (fold_left extract_step raw acc)
  = elems acc ++ map dest_of_map (omap as_map raw).
Proof.
  revert acc. induction raw as [|d raw IH]; intros acc; simpl.
  - by rewrite app_nil_r.
  - rewrite IH. destruct d; simpl; try done.
    by rewrite <- app_assoc.
Qed.

Lemma extract_shape project :
  extractDestinations project =
  match obj_get "spec" project with
  | None => Ok (Some [])
  | Some (JObj spec) =>
      match obj_get "destinations" spec with
      | None => Ok (Some [])
      | Some (JArr raw) => Ok (fold_left extract_step raw None)
      | Some _ =>
          Err (Errorf "failed to get destinations"
                 (AccessorError ["destinations"] "[]interface{}"))
      end
  | Some _ =>
      Err (Errorf "failed to get spec"
             (AccessorError ["spec"] "map[string]interface{}"))
  end.
Proof.
  unfold extractDestinations, NestedMap, NestedSlice, NestedFieldNoCopy. simpl.
  destruct (obj_get "spec" project) as [[| | | |xs|spec]|]; try done.
  destruct (obj_get "destinations" spec) as [[| | | |raw|m]|]; done.
Qed.

(** C6, as the code has it. For a record whose [spec.destinations] is the
    list [raw], [extractDestinations] succeeds; it skips the elements that
    are not maps, and only those, and returns one destination for each
    element that is a map, in order. The destination's server, namespace and
    name are the map's members of those names when they are strings, and are
    empty otherwise: a map that is not a destination is not skipped. *)
Theorem extract_keeps_every_map (project spec : object) (raw : list JSON) :
  obj_get "spec" project = Some (JObj spec) ->
  obj_get "destinations" spec = Some (JArr raw) ->
  exists ds,
    extractDestinations project = Ok ds
    /\ elems ds
       = map (fun m =>
                {| Server := match obj_get "server" m with
                             | Some (JStr s) => s
                             | _ => ""
                             end;
                   Namespace := match obj_get "namespace" m with
                                | Some (JStr s) => s
                                | _ => ""
                                end;
                   Name := match obj_get "name" m with
                           | Some (JStr s) => s
                           | _ => ""
                           end |})
             (omap as_map raw)
    /\ length (elems ds) = length (filter (fun d => is_Some (as_map d)) raw).
Proof.
  intros Hspec Hraw. exists (fold_left extract_step raw None).
  rewrite extract_shape, Hspec, Hraw. split; [done|].
  rewrite extract_loop_elems. simpl. split.
  { apply map_ext. intros m. unfold dest_of_map, string_field.
    by destruct (obj_get "server" m) as [[]|],
                (obj_get "namespace" m) as [[]|],
                (obj_get "name" m) as [[]|]. }
  rewrite length_map. clear.
  induction raw as [|d raw IH]; simpl; [done|].
  rewrite filter_cons.
  destruct (decide (is_Some (as_map d))) as [[m Hm]|Hn].
  - destruct d; try discriminate. simpl. f_equal. exact IH.
  - destruct d; simpl; try exact IH. exfalso. apply Hn. eauto.
Qed.

Lemma extract_keeps_every_map_witness :
  exists ds,
    extractDestinations
      [("spec",
        JObj [("destinations",
               JArr [JObj [("server", JStr "a"); ("namespace", JStr "ns1")];
                     JStr "https://kubernetes.default.svc";
                     JObj [("server", JNum 5); ("namespace", JStr "ns2")];
                     JNull;
                     JObj [("server", JStr "c"); ("namespace", JStr "ns3");
                           ("name", JStr "third")]])])]
    = Ok ds
    /\ elems ds
       = [dest_a; {| Server := ""; Namespace := "ns2"; Name := "" |}; dest_c].
Proof.
  destruct (extract_keeps_every_map
              [("spec",
                JObj [("destinations",
                       JArr [JObj [("server", JStr "a"); ("namespace", JStr "ns1")];
                             JStr "https://kubernetes.default.svc";
                             JObj [("server", JNum 5); ("namespace", JStr "ns2")];
                             JNull;
                             JObj [("server", JStr "c"); ("namespace", JStr "ns3");
                                   ("name", JStr "third")]])])]
              [("destinations",
                JArr [JObj [("server", JStr "a"); ("namespace", JStr "ns1")];
                      JStr "https://kubernetes.default.svc";
                      JObj [("server", JNum 5); ("namespace", JStr "ns2")];
                      JNull;
                      JObj [("server", JStr "c"); ("namespace", JStr "ns3");
                            ("name", JStr "third")]])]
              [JObj [("server", JStr "a"); ("namespace", JStr "ns1")];
               JStr "https://kubernetes.default.svc";
               JObj [("server", JNum 5); ("namespace", JStr "ns2")];
               JNull;
               JObj [("server", JStr "c"); ("namespace", JStr "ns3");
                     ("name", JStr "third")]]
              eq_refl eq_refl)
    as (ds & Hext & Helems & _).
  exists ds. split; [exact Hext|]. rewrite Helems. reflexivity.
Defined.

(** C6 as stated fails: none of these three elements is a well-formed
    destination object, and extraction returns a destination, with every
    field empty, for each of them. *)
Lemma extract_derives_from_malformed :
  List.filter spec_well_formed stray_maps = []
  /\ extractDestinations stray_project
     = Ok (Some [empty_destination; empty_destination; empty_destination]).
Proof. split; reflexivity. Qed.

(** ** The client over any dynamic interface *)

Lemma destinationsEqual_eq a b : destinationsEqual a b = true <-> a = b.
Proof.
  unfold destinationsEqual. destruct a as [s1 n1 m1], b as [s2 n2 m2]. simpl.
  rewrite !andb_true_iff, !String.eqb_eq. split.
  - intros [[-> ->] ->]. done.
  - intros [= -> -> ->]. done.
Qed.

Lemma present_elem_of dest l : present dest l = true <-> dest ∈ l.
Proof.
  unfold present. rewrite existsb_exists. split.
  - intros (x & Hin & Heq). apply destinationsEqual_eq in Heq. subst x.
    by apply list_elem_of_In.
  - intros Hin. exists dest. split; [by apply list_elem_of_In|].
    by apply destinationsEqual_eq.
Qed.

Lemma without_all dest l : present dest l = false -> without dest l = l.
Proof.
  unfold present, without. induction l as [|x l IH]; simpl; [done|].
  intros Hp. apply orb_false_iff in Hp as [Hx Hl].
  rewrite Hx. simpl. by rewrite IH.
Qed.

Lemma without_elem_of dest l x :
  x ∈ without dest l <-> x ∈ l /\ destinationsEqual x dest = false.
Proof.
  unfold without. rewrite !list_elem_of_In, filter_In, negb_true_iff. done.
Qed.

Lemma without_sublist dest l : sublist (without dest l) l.
Proof.
  unfold without. induction l as [|x l IH]; simpl; [constructor|].
  destruct (destinationsEqual x dest); simpl; by constructor.
Qed.

Lemma remove_loop dest l acc found :
  fold_left (remove_step dest) l (acc, found)
  = (match without dest l with
     | [] => acc
     | kept => Some (elems acc ++ kept)
     end, found || present dest l).
Proof.
  revert acc found. unfold without, present.
  induction l as [|x l IH]; intros acc found; simpl.
  - by rewrite orb_false_r.
  - unfold remove_step at 2. destruct (destinationsEqual x dest); simpl.
    + rewrite IH. by rewrite orb_true_r.
    + rewrite IH. unfold append; simpl. f_equal.
      destruct (List.filter _ l); simpl; by rewrite <- ?app_assoc.
Qed.

Lemma writes_app cs cs' : writes (cs ++ cs') = writes cs ++ writes cs'.
Proof. unfold writes. apply filter_app. Qed.

Section AnyInterface.
Context {St : Type} `{DynamicInterface St}.
Variable c : Client.

Lemma GetDestinations_run ctx name w :
  GetDestinations c ctx name w =
  (match (dyn_Get ctx (namespace c) name (backend w)).1 with
   | Err err => Err err
   | Ok project =>
       match extractDestinations project with
       | Err err => Err err
       | Ok destinations => Ok (destinations, GetResourceVersion project)
       end
   end,
   mkWorld (dyn_Get ctx (namespace c) name (backend w)).2
           (calls w ++ [GetCall (namespace c) name])).
Proof.
  unfold GetDestinations, bind, Get, ret.
  destruct (dyn_Get ctx (namespace c) name (backend w)) as [[project|err] b];
    simpl; [|done].
  by destruct (extractDestinations project).
Qed.

Lemma patchDestinations_run ctx name ds rv w :
  patchDestinations c ctx name ds rv w =
  (error_of (dyn_Patch ctx (namespace c) name MergePatchType
               (patch_document ds rv) (backend w)).1,
   mkWorld (dyn_Patch ctx (namespace c) name MergePatchType
              (patch_document ds rv) (backend w)).2
           (calls w ++ [PatchCall (namespace c) name MergePatchType
                          (patch_document ds rv)])).
Proof.
  unfold patchDestinations, bind, Patch, ret.
  by destruct (dyn_Patch _ _ _ _ _ _) as [[o|err] b].
Qed.

(** Add of a destination that the fetch already shows: no request but the
    Get, and a nil error. *)
Lemma add_present_run ctx name dest w project b ds :
  dyn_Get ctx (namespace c) name (backend w) = (Ok project, b) ->
  extractDestinations project = Ok ds ->
  present dest (elems ds) = true ->
  AddDestination c ctx name dest w
  = (None, mkWorld b (calls w ++ [GetCall (namespace c) name])).
Proof.
  intros Hget Hext Hp. unfold AddDestination, bind.
  rewrite GetDestinations_run, Hget. simpl. rewrite Hext.
  fold (present dest (elems ds)). by rewrite Hp.
Qed.

Lemma add_absent_run ctx name dest w project b ds :
  dyn_Get ctx (namespace c) name (backend w) = (Ok project, b) ->
  extractDestinations project = Ok ds ->
  present dest (elems ds) = false ->
  AddDestination c ctx name dest w
  = (error_of (dyn_Patch ctx (namespace c) name MergePatchType
                 (patch_document (Some (elems ds ++ [dest]))
                    (GetResourceVersion project)) b).1,
     mkWorld (dyn_Patch ctx (namespace c) name MergePatchType
                (patch_document (Some (elems ds ++ [dest]))
                   (GetResourceVersion project)) b).2
       (calls w ++ [GetCall (namespace c) name;
                    PatchCall (namespace c) name MergePatchType
                      (patch_document (Some (elems ds ++ [dest]))
                         (GetResourceVersion project))])).
Proof.
  intros Hget Hext Hp. unfold AddDestination, bind.
  rewrite GetDestinations_run, Hget. simpl. rewrite Hext.
  fold (present dest (elems ds)). rewrite Hp.
  unfold append. rewrite patchDestinations_run. simpl. by rewrite <- app_assoc.
Qed.

Lemma remove_run ctx name dest w project b ds :
  dyn_Get ctx (namespace c) name (backend w) = (Ok project, b) ->
  extractDestinations project = Ok ds ->
  RemoveDestination c ctx name dest w
  = if present dest (elems ds)
    then patchDestinations c ctx name (kept_slice (without dest (elems ds)))
           (GetResourceVersion project)
           (mkWorld b (calls w ++ [GetCall (namespace c) name]))
    else (None, mkWorld b (calls w ++ [GetCall (namespace c) name])).
Proof.
  intros Hget Hext. unfold RemoveDestination, bind.
  rewrite GetDestinations_run, Hget. simpl. rewrite Hext.
  rewrite remove_loop. simpl.
  destruct (present dest (elems ds)); simpl; [|done].
  unfold kept_slice. by destruct (without dest (elems ds)).
Qed.
End AnyInterface.

(** ** Fetch *)

(** C4, as the code has it. A record without [spec], or whose [spec] has no
    [destinations], is fetched as the empty sequence, and a list is read
    element by element; a [destinations] that is present but is not a list,
    and a [spec] that is present but is not a map, make the fetch fail with
    the accessor's error wrapped. *)
Theorem fetch_degrades_absent_fields {St} `{DynamicInterface St} (c : Client)
  (ctx : Context) (name : string) (w : World St) (project : object) (b : St) :
  dyn_Get ctx (namespace c) name (backend w) = (Ok project, b) ->
  (GetDestinations c ctx name w).1 =
  match obj_get "spec" project with
  | None => Ok (Some [], GetResourceVersion project)
  | Some (JObj spec) =>
      match obj_get "destinations" spec with
      | None => Ok (Some [], GetResourceVersion project)
      | Some (JArr raw) =>
          Ok (fold_left extract_step raw None, GetResourceVersion project)
      | Some _ =>
          Err (Errorf "failed to get destinations"
                 (AccessorError ["destinations"] "[]interface{}"))
      end
  | Some _ =>
      Err (Errorf "failed to get spec"
             (AccessorError ["spec"] "map[string]interface{}"))
  end.
Proof.
  intros Hget. rewrite GetDestinations_run, Hget. simpl.
  rewrite extract_shape.
  destruct (obj_get "spec" project) as [[| | | |xs|spec]|]; try done.
  destruct (obj_get "destinations" spec) as [[| | | |raw|m]|]; done.
Qed.

Lemma fetch_degrades_absent_fields_witness :
  (GetDestinations demo_client Live "demo" demo_world).1 = Ok (Some [dest_a], "v1").
Proof.
  rewrite (fetch_degrades_absent_fields demo_client Live "demo" demo_world
             demo_project demo_server); reflexivity.
Defined.

(** C4 as stated fails: the fetch of a record whose destinations field is
    a string is an error, not the empty sequence. *)
Lemma fetch_malformed_field_is_error :
  (GetDestinations demo_client Live "demo" malformed_world).1
  = Err (Errorf "failed to get destinations"
           (AccessorError ["destinations"] "[]interface{}"))
  /\ ~ (exists ds rv,
          (GetDestinations demo_client Live "demo" malformed_world).1 = Ok (ds, rv)
          /\ elems ds = []).
Proof.
  split; [reflexivity|]. intros (ds & rv & Hfetch & _). discriminate Hfetch.
Qed.

(** ** Add and Remove over any dynamic interface *)

Lemma without_changes dest l : present dest l = true -> without dest l <> l.
Proof.
  intros Hp Heq. apply present_elem_of in Hp. rewrite <- Heq in Hp.
  apply without_elem_of in Hp as [_ Hne].
  assert (destinationsEqual dest dest = true) by by apply destinationsEqual_eq.
  congruence.
Qed.



(** ** The reference API server *)

Lemma dest_of_marshal d :
  as_map (marshal_destination d) = Some
    ([("server", JStr (Server d)); ("namespace", JStr (Namespace d))]
     ++ (if String.eqb (Name d) "" then [] else [("name", JStr (Name d))]))
  /\ forall m, as_map (marshal_destination d) = Some m -> dest_of_map m = d.
Proof.
  split; [done|]. intros m [= <-]. destruct d as [sv ns nm]. simpl.
  destruct (String.eqb nm "") eqn:E.
  - apply String.eqb_eq in E. by subst nm.
  - done.
Qed.

Lemma extract_marshalled l :
  map dest_of_map (omap as_map (map marshal_destination l)) = l.
Proof.
  induction l as [|d l IH]; simpl; [done|].
  f_equal; [|exact IH]. by apply (dest_of_marshal d).
Qed.

(** ** What Remove sends *)

(** C2. [RemoveDestination] keeps the fetched destinations that are not
    equal to [dest], in their order. When none was dropped it returns nil
    after the Get alone; otherwise it makes one patch request, a merge
    patch whose resource version is the one of the object just fetched and
    whose destinations are the kept ones, each written with its server, its
    namespace and its name when it has one ([null] when none is kept): read
    back, they are the kept destinations. *)
Theorem remove_filters_and_patches {St} `{DynamicInterface St} (c : Client)
  (ctx : Context) (name : string) (dest : Destination) (w : World St)
  (project : object) (b : St) (ds : slice Destination) :
  dyn_Get ctx (namespace c) name (backend w) = (Ok project, b) ->
  extractDestinations project = Ok ds ->
  let kept := without dest (elems ds) in
  let sent_destinations :=
    match kept with
    | [] => JNull
    | _ =>
        JArr (map (fun d =>
                     JObj ([("server", JStr (Server d));
                            ("namespace", JStr (Namespace d))]
                           ++ (if String.eqb (Name d) "" then []
                               else [("name", JStr (Name d))])))
                  kept)
    end in
  let body :=
    JObj [("metadata",
           JObj [("resourceVersion", JStr (GetResourceVersion project))]);
          ("spec", JObj [("destinations", sent_destinations)])] in
  let sent := dyn_Patch ctx (namespace c) name MergePatchType body b in
  sublist kept (elems ds)
  /\ (forall x, x ∈ kept <-> x ∈ elems ds /\ x <> dest)
  /\ elems (kept_slice kept) = kept
  /\ (kept = elems ds <-> present dest (elems ds) = false)
  /\ (forall raw,
        sent_destinations = JArr raw -> map dest_of_map (omap as_map raw) = kept)
  /\ (sent_destinations = JNull <-> kept = [])
  /\ RemoveDestination c ctx name dest w
     = if present dest (elems ds)
       then (error_of sent.1,
             mkWorld sent.2
               (calls w ++ [GetCall (namespace c) name;
                            PatchCall (namespace c) name MergePatchType body]))
       else (None, mkWorld b (calls w ++ [GetCall (namespace c) name])).
Proof.
  intros Hget Hext kept sent_destinations body sent.
  assert (Hself : destinationsEqual dest dest = true)
    by by apply destinationsEqual_eq.
  assert (Hsent : sent_destinations = marshal_destinations (kept_slice kept)).
  { unfold sent_destinations, kept_slice. by destruct kept. }
  split; [apply without_sublist|].
  split.
  { intros x. unfold kept. rewrite without_elem_of. split.
    - intros [Hx Hne]. split; [done|]. intros ->. congruence.
    - intros [Hx Hne]. split; [done|].
      destruct (destinationsEqual x dest) eqn:E; [|done].
      by apply destinationsEqual_eq in E. }
  split; [unfold kept_slice; by destruct kept|].
  split.
  { split.
    - intros Heq. destruct (present dest (elems ds)) eqn:E; [|done].
      by apply without_changes in E.
    - apply without_all. }
  split.
  { intros raw Hraw. unfold sent_destinations in Hraw.
    destruct kept as [|d kept'] eqn:Ek; [done|].
    injection Hraw as <-. apply (extract_marshalled (d :: kept')). }
  split.
  { unfold sent_destinations. by destruct kept. }
  rewrite (remove_run c ctx name dest w project b ds Hget Hext).
  destruct (present dest (elems ds)); [|done].
  rewrite patchDestinations_run. simpl.
  unfold sent, body. rewrite Hsent. unfold patch_document.
  by rewrite <- app_assoc.
Qed.

(** Removing the second of three destinations sends the first and the
    third, the third with its name; removing one that is not there sends
    nothing; removing the only one sends [null]. *)
Lemma remove_filters_and_patches_witness :
  calls (RemoveDestination demo_client Live "trio" dest_b trio_world).2
  = [GetCall "argocd" "trio";
     PatchCall "argocd" "trio" MergePatchType
       (JObj [("metadata", JObj [("resourceVersion", JStr "41")]);
              ("spec",
               JObj [("destinations",
                      JArr [JObj [("server", JStr "a"); ("namespace", JStr "ns1")];
                            JObj [("server", JStr "c"); ("namespace", JStr "ns3");
                                  ("name", JStr "third")]])])])]
  /\ (RemoveDestination demo_client Live "demo" dest_b demo_world).1 = None
  /\ writes (calls (RemoveDestination demo_client Live "demo" dest_b demo_world).2) = []
  /\ calls (RemoveDestination demo_client Live "demo" dest_a demo_world).2
     = [GetCall "argocd" "demo";
        PatchCall "argocd" "demo" MergePatchType
          (JObj [("metadata", JObj [("resourceVersion", JStr "v1")]);
                 ("spec", JObj [("destinations", JNull)])])].
Proof.
  assert (Htrio : dyn_Get Live (namespace demo_client) "trio" (backend trio_world)
                  = (Ok trio_project, trio_server)) by reflexivity.
  assert (Hthree : extractDestinations trio_project
                   = Ok (Some [dest_a; dest_b; dest_c])) by reflexivity.
  assert (Hget : dyn_Get Live (namespace demo_client) "demo" (backend demo_world)
                 = (Ok demo_project, demo_server)) by reflexivity.
  assert (Hext : extractDestinations demo_project = Ok (Some [dest_a]))
    by reflexivity.
  destruct (remove_filters_and_patches demo_client Live "trio" dest_b trio_world
              trio_project trio_server (Some [dest_a; dest_b; dest_c]) Htrio Hthree)
    as (_ & _ & _ & _ & _ & _ & Ht).
  destruct (remove_filters_and_patches demo_client Live "demo" dest_b demo_world
              demo_project demo_server (Some [dest_a]) Hget Hext)
    as (_ & _ & _ & _ & _ & _ & Hb).
  destruct (remove_filters_and_patches demo_client Live "demo" dest_a demo_world
              demo_project demo_server (Some [dest_a]) Hget Hext)
    as (_ & _ & _ & _ & _ & _ & Ha).
  rewrite Ht, Hb, Ha. repeat split; reflexivity.
Defined.

(** ** Merge patches on the reference server *)

Lemma merge_patch_document o nd rv :
  merge_patch (JObj o) (patch_document nd rv) = JObj (patched o nd rv).
Proof.
  unfold patch_document, patched, sub_object. simpl.
  rewrite !obj_get_set_ne by done.
  f_equal. f_equal.
  - f_equal. destruct nd as [l|]; simpl.
    + by destruct (obj_get "spec" o) as [[]|].
    + by destruct (obj_get "spec" o) as [[]|].
  - f_equal. by destruct (obj_get "metadata" o) as [[]|].
Qed.

Lemma patched_resource_version o nd rv : GetResourceVersion (patched o nd rv) = rv.
Proof.
  unfold GetResourceVersion, getNestedString, NestedString, NestedFieldNoCopy,
    patched. simpl.
  rewrite obj_get_set_ne by done. rewrite obj_get_set_eq.
  by rewrite obj_get_set_eq.
Qed.

Lemma stored_spec rv' o nd rv :
  obj_get "spec" (with_resource_version rv' (patched o nd rv))
  = Some (JObj (match nd with
                | None => obj_del "destinations" (sub_object "spec" o)
                | Some l =>
                    obj_set "destinations" (JArr (map marshal_destination l))
                      (sub_object "spec" o)
                end)).
Proof.
  unfold with_resource_version, patched.
  rewrite obj_get_set_ne by done. rewrite obj_get_set_eq.
  unfold sub_object. by rewrite obj_get_set_ne by done.
Qed.

Lemma stored_extract rv' o nd rv :
  exists ds,
    extractDestinations (with_resource_version rv' (patched o nd rv)) = Ok ds
    /\ elems ds = elems nd.
Proof.
  rewrite extract_shape, stored_spec. destruct nd as [l|].
  - rewrite obj_get_set_eq. eexists. split; [done|].
    rewrite extract_loop_elems. simpl. apply extract_marshalled.
  - rewrite obj_get_del_eq. by eexists.
Qed.

Lemma stored_top_frame rv' o nd rv k :
  k <> "metadata" -> k <> "spec" ->
  obj_get k (with_resource_version rv' (patched o nd rv)) = obj_get k o.
Proof.
  intros Hm Hs. unfold with_resource_version, patched.
  rewrite !obj_get_set_ne by done. done.
Qed.

Lemma stored_spec_frame rv' o nd rv k :
  k <> "destinations" ->
  obj_get k (sub_object "spec" (with_resource_version rv' (patched o nd rv)))
  = obj_get k (sub_object "spec" o).
Proof.
  intros Hk. unfold sub_object at 1. rewrite stored_spec. destruct nd.
  - by rewrite obj_get_set_ne.
  - by rewrite obj_get_del_ne.
Qed.

Lemma stored_metadata_frame rv' o nd rv k :
  k <> "resourceVersion" ->
  obj_get k (sub_object "metadata" (with_resource_version rv' (patched o nd rv)))
  = obj_get k (sub_object "metadata" o).
Proof.
  intros Hk. unfold with_resource_version, metadata_of.
  unfold sub_object at 1. rewrite obj_get_set_eq.
  rewrite obj_get_set_ne by done.
  unfold patched, sub_object at 1.
  rewrite obj_get_set_ne by done. rewrite obj_get_set_eq.
  by rewrite obj_get_set_ne.
Qed.

Lemma api_Patch_document ctx ns name nd rv s o :
  refusal ctx s = None ->
  objects s !! (ns, name) = Some o ->
  api_Patch ctx ns name MergePatchType (patch_document nd rv) s
  = if String.eqb rv (GetResourceVersion o)
    then
      let stored :=
        with_resource_version (pretty (revision s + 1)%N) (patched o nd rv) in
      (Ok stored,
       mkApiServer (<[(ns, name) := stored]> (objects s)) (revision s + 1)%N
                   (fault s))
    else (Err (StatusError "Conflict" 409), s).
Proof.
  intros Href Hobj. unfold api_Patch. rewrite Href, Hobj.
  rewrite merge_patch_document, patched_resource_version. done.
Qed.

Lemma api_Get_found ctx ns name s o :
  refusal ctx s = None ->
  objects s !! (ns, name) = Some o ->
  api_Get ctx ns name s = (Ok o, s).
Proof. intros Href Hobj. unfold api_Get. by rewrite Href, Hobj. Qed.

Lemma api_Get_ok ctx ns name s o s' :
  api_Get ctx ns name s = (Ok o, s') ->
  refusal ctx s = None /\ objects s !! (ns, name) = Some o /\ s' = s.
Proof.
  unfold api_Get. destruct (refusal ctx s); [done|].
  destruct (objects s !! (ns, name)); [|done]. by intros [= -> ->].
Qed.

(** C5. The patch that [patchDestinations] sends is a merge patch of two
    members, [metadata.resourceVersion] and [spec.destinations]. On the
    reference server it is refused with a conflict, and nothing changes,
    unless its resource version is the stored one; when it is accepted, the
    stored [spec.destinations] is the new sequence whatever the field held
    before (the field is removed when the new slice is nil, which is read
    back as the empty sequence), and every other member of the record, of
    its [spec] and of its [metadata] except the resource version, and every
    other record, is as it was. *)
Theorem patch_replaces_destinations_only (c : Client) (name : string)
  (nd : slice Destination) (rv : string) (w : World ApiServer) (o : object) :
  fault (backend w) = None ->
  objects (backend w) !! (namespace c, name) = Some o ->
  let out := patchDestinations c Live name nd rv w in
  calls out.2
  = calls w ++ [PatchCall (namespace c) name MergePatchType
                  (JObj [("metadata", JObj [("resourceVersion", JStr rv)]);
                         ("spec", JObj [("destinations", marshal_destinations nd)])])]
  /\ (rv <> GetResourceVersion o ->
      out.1 = Some (StatusError "Conflict" 409) /\ backend out.2 = backend w)
  /\ (rv = GetResourceVersion o ->
      out.1 = None
      /\ exists o',
          objects (backend out.2) !! (namespace c, name) = Some o'
          /\ obj_get "destinations" (sub_object "spec" o')
             = match nd with
               | None => None
               | Some l => Some (JArr (map marshal_destination l))
               end
          /\ (exists ds, extractDestinations o' = Ok ds /\ elems ds = elems nd)
          /\ (forall k, k <> "metadata" -> k <> "spec" -> obj_get k o' = obj_get k o)
          /\ (forall k, k <> "destinations" ->
                obj_get k (sub_object "spec" o') = obj_get k (sub_object "spec" o))
          /\ (forall k, k <> "resourceVersion" ->
                obj_get k (sub_object "metadata" o')
                = obj_get k (sub_object "metadata" o))
          /\ (forall key, key <> (namespace c, name) ->
                objects (backend out.2) !! key = objects (backend w) !! key)).
Proof.
  intros Hfault Hobj out. unfold out. rewrite patchDestinations_run. simpl.
  rewrite (api_Patch_document Live (namespace c) name nd rv (backend w) o Hfault Hobj).
  split; [done|]. split.
  - intros Hne. apply String.eqb_neq in Hne. by rewrite Hne.
  - intros Heq. apply String.eqb_eq in Heq. rewrite Heq. simpl.
    split; [done|]. eexists. split; [apply lookup_insert_eq|].
    split.
    { unfold sub_object at 1. rewrite stored_spec. destruct nd.
      - apply obj_get_set_eq.
      - apply obj_get_del_eq. }
    split; [apply stored_extract|].
    split; [intros k; apply stored_top_frame|].
    split; [intros k; apply stored_spec_frame|].
    split; [intros k; apply stored_metadata_frame|].
    intros key Hkey. by apply lookup_insert_ne.
Qed.

Lemma patch_replaces_destinations_only_witness :
  let out := patchDestinations demo_client Live "demo" (Some [dest_b]) "v1" demo_world in
  out.1 = None
  /\ (exists o',
        objects (backend out.2) !! ("argocd", "demo") = Some o'
        /\ obj_get "destinations" (sub_object "spec" o')
           = Some (JArr [JObj [("server", JStr "b"); ("namespace", JStr "ns2")]])
        /\ obj_get "description" (sub_object "spec" o')
           = Some (JStr "demo project")
        /\ obj_get "name" (sub_object "metadata" o') = Some (JStr "demo"))
  /\ (patchDestinations demo_client Live "demo" (Some [dest_b]) "v0" demo_world).1
     = Some (StatusError "Conflict" 409).
Proof.
  intros out.
  assert (Hfault : fault (backend demo_world) = None) by reflexivity.
  assert (Hobj : objects (backend demo_world) !! (namespace demo_client, "demo")
                 = Some demo_project) by reflexivity.
  destruct (patch_replaces_destinations_only demo_client "demo" (Some [dest_b])
              "v1" demo_world demo_project Hfault Hobj)
    as (_ & _ & Haccept).
  destruct (patch_replaces_destinations_only demo_client "demo" (Some [dest_b])
              "v0" demo_world demo_project Hfault Hobj)
    as (_ & Hrefuse & _).
  destruct (Haccept eq_refl) as (Hnil & o' & Hstored & Hdest & _ & _ & Hspec & Hmeta & _).
  split; [exact Hnil|]. split.
  - exists o'. split; [exact Hstored|]. split; [exact Hdest|]. split.
    + rewrite Hspec; [reflexivity|discriminate].
    + rewrite Hmeta; [reflexivity|discriminate].
  - apply Hrefuse. discriminate.
Defined.

(** ** Idempotence on the reference server *)

Lemma present_without dest l : present dest (without dest l) = false.
Proof.
  destruct (present dest (without dest l)) eqn:E; [|done].
  apply present_elem_of, without_elem_of in E as [_ Hne].
  assert (destinationsEqual dest dest = true) by by apply destinationsEqual_eq.
  congruence.
Qed.

Lemma refusal_after_write ctx s objs rev :
  refusal ctx (mkApiServer objs rev (fault s)) = refusal ctx s.
Proof. by destruct ctx. Qed.

Lemma repeat_call_noop {St} (op : M St (option error)) (Inv : St -> Prop) (g : Call) :
  (forall w, Inv (backend w) -> op w = (None, mkWorld (backend w) (calls w ++ [g]))) ->
  is_patch g = false ->
  forall n w, Inv (backend w) ->
    (repeat_call op n w).1 = replicate n None
    /\ backend (repeat_call op n w).2 = backend w
    /\ writes (calls (repeat_call op n w).2) = writes (calls w).
Proof.
  intros Hop Hg. induction n as [|n IH]; intros w HI; simpl; [done|].
  unfold bind. rewrite (Hop w HI).
  specialize (IH (mkWorld (backend w) (calls w ++ [g])) HI).
  destruct (repeat_call op n _) as [rest wn]. simpl in *.
  destruct IH as (-> & -> & ->). repeat split.
  rewrite writes_app. unfold writes at 2. rewrite filter_cons, filter_nil.
  rewrite decide_False by (rewrite Hg; done). by rewrite app_nil_r.
Qed.

(** After an Add that returned nil, a fetch shows the destination. *)
Lemma add_settles c ctx name dest (w w1 : World ApiServer) :
  AddDestination c ctx name dest w = (None, w1) ->
  exists project ds,
    dyn_Get ctx (namespace c) name (backend w1) = (Ok project, backend w1)
    /\ extractDestinations project = Ok ds
    /\ present dest (elems ds) = true.
Proof.
  intros Hadd.
  destruct (api_Get ctx (namespace c) name (backend w)) as [[project|e] b] eqn:Hget;
    [|change (dyn_Get ctx (namespace c) name (backend w) = (Err e, b)) in Hget].
  - destruct (api_Get_ok _ _ _ _ _ _ Hget) as (Href & Hobj & ->).
    change (dyn_Get ctx (namespace c) name (backend w) = (Ok project, backend w))
      in Hget.
    destruct (extractDestinations project) as [ds|e] eqn:Hext.
    + destruct (present dest (elems ds)) eqn:Hp.
      * rewrite (add_present_run c ctx name dest w project (backend w) ds Hget Hext Hp)
          in Hadd.
        injection Hadd as <-. simpl. by exists project, ds.
      * rewrite (add_absent_run c ctx name dest w project (backend w) ds
                   Hget Hext Hp) in Hadd.
        simpl in Hadd. rewrite (api_Patch_document _ _ _ _ _ _ _ Href Hobj) in Hadd.
        destruct (String.eqb _ _); simpl in Hadd; [|discriminate].
        injection Hadd as <-. simpl.
        destruct (stored_extract (pretty (revision (backend w) + 1)%N) project
                    (Some (elems ds ++ [dest])) (GetResourceVersion project))
          as (ds' & Hext' & Hel).
        eexists _, ds'. split; [|split; [exact Hext'|]].
        -- apply (api_Get_found ctx); [by rewrite refusal_after_write|].
           apply lookup_insert_eq.
        -- rewrite Hel. simpl. apply present_elem_of. set_solver.
    + unfold AddDestination, bind in Hadd.
      rewrite GetDestinations_run, Hget in Hadd. simpl in Hadd.
      rewrite Hext in Hadd. discriminate.
  - unfold AddDestination, bind in Hadd.
    rewrite GetDestinations_run, Hget in Hadd. discriminate.
Qed.

(** After a Remove that returned nil, a fetch does not show the destination. *)
Lemma remove_settles c ctx name dest (w w1 : World ApiServer) :
  RemoveDestination c ctx name dest w = (None, w1) ->
  exists project ds,
    dyn_Get ctx (namespace c) name (backend w1) = (Ok project, backend w1)
    /\ extractDestinations project = Ok ds
    /\ present dest (elems ds) = false.
Proof.
  intros Hrem.
  destruct (api_Get ctx (namespace c) name (backend w)) as [[project|e] b] eqn:Hget;
    [|change (dyn_Get ctx (namespace c) name (backend w) = (Err e, b)) in Hget].
  - destruct (api_Get_ok _ _ _ _ _ _ Hget) as (Href & Hobj & ->).
    change (dyn_Get ctx (namespace c) name (backend w) = (Ok project, backend w))
      in Hget.
    destruct (extractDestinations project) as [ds|e] eqn:Hext.
    + rewrite (remove_run c ctx name dest w project (backend w) ds Hget Hext) in Hrem.
      destruct (present dest (elems ds)) eqn:Hp.
      * rewrite patchDestinations_run in Hrem. simpl in Hrem.
        rewrite (api_Patch_document _ _ _ _ _ _ _ Href Hobj) in Hrem.
        destruct (String.eqb _ _); simpl in Hrem; [|discriminate].
        injection Hrem as <-. simpl.
        destruct (stored_extract (pretty (revision (backend w) + 1)%N) project
                    (kept_slice (without dest (elems ds)))
                    (GetResourceVersion project))
          as (ds' & Hext' & Hel).
        eexists _, ds'. split; [|split; [exact Hext'|]].
        -- apply (api_Get_found ctx); [by rewrite refusal_after_write|].
           apply lookup_insert_eq.
        -- rewrite Hel.
           replace (elems (kept_slice (without dest (elems ds))))
             with (without dest (elems ds))
             by (unfold kept_slice; by destruct (without dest (elems ds))).
           apply present_without.
      * injection Hrem as <-. simpl. by exists project, ds.
    + unfold RemoveDestination, bind in Hrem.
      rewrite GetDestinations_run, Hget in Hrem. simpl in Hrem.
      rewrite Hext in Hrem. discriminate.
  - unfold RemoveDestination, bind in Hrem.
    rewrite GetDestinations_run, Hget in Hrem. discriminate.
Qed.

(** C1. An Add of a destination that equals one of the fetched
    destinations returns nil and sends no patch. On the reference server,
    once an Add or a Remove has returned nil, the same call repeated any
    number of times returns nil every time, sends no patch, and leaves the
    store, and so the destinations a fetch shows, as the first call left
    them. *)
Theorem add_remove_idempotent (c : Client) (ctx : Context) (name : string)
  (dest : Destination) (w : World ApiServer) :
  (forall project b ds,
      dyn_Get ctx (namespace c) name (backend w) = (Ok project, b) ->
      extractDestinations project = Ok ds ->
      dest ∈ elems ds ->
      (AddDestination c ctx name dest w).1 = None
      /\ writes (calls (AddDestination c ctx name dest w).2) = writes (calls w)
      /\ backend (AddDestination c ctx name dest w).2 = b)
  /\ (forall m w1,
        run_mutation c m ctx name dest w = (None, w1) ->
        forall n,
          let again := repeat_call (run_mutation c m ctx name dest) n w1 in
          again.1 = replicate n None
          /\ writes (calls again.2) = writes (calls w1)
          /\ backend again.2 = backend w1
          /\ (GetDestinations c ctx name again.2).1
             = (GetDestinations c ctx name w1).1).
Proof.
  split.
  - intros project b ds Hget Hext Hin. apply present_elem_of in Hin.
    rewrite (add_present_run c ctx name dest w project b ds Hget Hext Hin). simpl.
    split; [done|]. split; [|done].
    rewrite writes_app. unfold writes at 2. rewrite filter_cons, filter_nil.
    rewrite decide_False by done. by rewrite app_nil_r.
  - intros m w1 Hfirst n again.
    assert (Hrep : again.1 = replicate n None
                   /\ backend again.2 = backend w1
                   /\ writes (calls again.2) = writes (calls w1)).
    { unfold again. destruct m; simpl in Hfirst |- *.
      - apply (repeat_call_noop (AddDestination c ctx name dest)
                 (fun s => exists project ds,
                      dyn_Get ctx (namespace c) name s = (Ok project, s)
                      /\ extractDestinations project = Ok ds
                      /\ present dest (elems ds) = true)
                 (GetCall (namespace c) name)); [|done|by eapply add_settles].
        intros w' (project & ds & Hget & Hext & Hp).
        by apply (add_present_run c ctx name dest w' project (backend w') ds).
      - apply (repeat_call_noop (RemoveDestination c ctx name dest)
                 (fun s => exists project ds,
                      dyn_Get ctx (namespace c) name s = (Ok project, s)
                      /\ extractDestinations project = Ok ds
                      /\ present dest (elems ds) = false)
                 (GetCall (namespace c) name)); [|done|by eapply remove_settles].
        intros w' (project & ds & Hget & Hext & Hp).
        rewrite (remove_run c ctx name dest w' project (backend w') ds Hget Hext).
        by rewrite Hp. }
    destruct Hrep as (Hres & Hback & Hwrites).
    repeat split; try done.
    rewrite !GetDestinations_run. simpl. by rewrite Hback.
Qed.

Lemma add_remove_idempotent_witness :
  let first := AddDestination demo_client Live "demo" dest_b demo_world in
  let again := repeat_call (AddDestination demo_client Live "demo" dest_b) 3 first.2 in
  first.1 = None
  /\ again.1 = [None; None; None]
  /\ writes (calls again.2) = writes (calls first.2)
  /\ (GetDestinations demo_client Live "demo" again.2).1
     = Ok (Some [dest_a; dest_b], "2").
Proof.
  intros first again.
  destruct (add_remove_idempotent demo_client Live "demo" dest_b demo_world)
    as [_ Hrepeat].
  assert (Hfirst : run_mutation demo_client Add Live "demo" dest_b demo_world
                   = (None, first.2)) by reflexivity.
  destruct (Hrepeat Add first.2 Hfirst 3%nat) as (Hres & Hwrites & _ & Hfetch).
  split; [reflexivity|]. split; [exact Hres|]. split; [exact Hwrites|].
  transitivity (GetDestinations demo_client Live "demo" first.2).1;
    [exact Hfetch|reflexivity].
Defined.

(** ** What the caller learns from the returned error *)

(** C7, as the code has it. Add and Remove return an [error]: it is nil
    when the call changed nothing (the destination was already present, or
    was not there to remove), it is the error of the patch request when one
    was sent, and so it is nil as well when that request succeeded. *)
Theorem mutation_error_is_nil_for_noop_and_commit {St} `{DynamicInterface St}
  (c : Client) (m : Mutation) (ctx : Context) (name : string)
  (dest : Destination) (w : World St) (project : object) (b : St)
  (ds : slice Destination) :
  dyn_Get ctx (namespace c) name (backend w) = (Ok project, b) ->
  extractDestinations project = Ok ds ->
  let noop :=
    match m with
    | Add => present dest (elems ds)
    | Remove => negb (present dest (elems ds))
    end in
  let nd :=
    match m with
    | Add => Some (elems ds ++ [dest])
    | Remove => kept_slice (without dest (elems ds))
    end in
  let body := patch_document nd (GetResourceVersion project) in
  let sent := dyn_Patch ctx (namespace c) name MergePatchType body b in
  let out := run_mutation c m ctx name dest w in
  (noop = true -> out.1 = None /\ writes (calls out.2) = writes (calls w))
  /\ (noop = false ->
      out.1 = error_of sent.1
      /\ writes (calls out.2)
         = writes (calls w) ++ [PatchCall (namespace c) name MergePatchType body]
      /\ (forall o, sent.1 = Ok o -> out.1 = None)).
Proof.
  intros Hget Hext noop nd body sent out.
  assert (Hw : forall cs g, is_patch g = false -> writes (cs ++ [g]) = writes cs).
  { intros cs g Hg. rewrite writes_app. unfold writes at 2.
    rewrite filter_cons, filter_nil.
    rewrite decide_False by (rewrite Hg; done). by rewrite app_nil_r. }
  assert (Hp : forall cs g g', is_patch g = false -> is_patch g' = true ->
                 writes (cs ++ [g; g']) = writes cs ++ [g']).
  { intros cs g g' Hg Hg'. rewrite writes_app. f_equal. unfold writes.
    rewrite !filter_cons, filter_nil.
    rewrite decide_False by (rewrite Hg; done). by rewrite decide_True. }
  unfold out, noop, sent, body, nd. destruct m; cbn [run_mutation].
  - split; intros Hn.
    + rewrite (add_present_run c ctx name dest w project b ds Hget Hext Hn).
      cbn [fst snd calls backend]. split; [done|]. by apply Hw.
    + rewrite (add_absent_run c ctx name dest w project b ds Hget Hext Hn).
      cbn [fst snd calls backend]. split; [done|]. split; [by apply Hp|].
      intros o Ho. by rewrite Ho.
  - rewrite (remove_run c ctx name dest w project b ds Hget Hext).
    split; intros Hn.
    + apply negb_true_iff in Hn. rewrite Hn. cbn [fst snd calls backend].
      split; [done|]. by apply Hw.
    + apply negb_false_iff in Hn. rewrite Hn, patchDestinations_run.
      cbn [fst snd calls backend]. split; [done|]. split; [|intros o Ho; by rewrite Ho].
      rewrite <- app_assoc. by apply Hp.
Qed.

Lemma mutation_error_is_nil_for_noop_and_commit_witness :
  (AddDestination demo_client Live "demo" dest_a demo_world).1 = None
  /\ (AddDestination demo_client Live "demo" dest_b demo_world).1 = None.
Proof.
  assert (Hget : dyn_Get Live (namespace demo_client) "demo" (backend demo_world)
                 = (Ok demo_project, demo_server)) by reflexivity.
  assert (Hext : extractDestinations demo_project = Ok (Some [dest_a]))
    by reflexivity.
  destruct (mutation_error_is_nil_for_noop_and_commit demo_client Add Live "demo"
              dest_a demo_world demo_project demo_server (Some [dest_a]) Hget Hext)
    as [Hnoop _].
  destruct (mutation_error_is_nil_for_noop_and_commit demo_client Add Live "demo"
              dest_b demo_world demo_project demo_server (Some [dest_a]) Hget Hext)
    as [_ Hcommit].
  split.
  - apply Hnoop. reflexivity.
  - destruct (Hcommit eq_refl) as (_ & _ & Hnil). eapply Hnil. reflexivity.
Defined.

(** C7 as stated fails: an Add that changes nothing and an Add that commits
    a patch return the same value. *)
Lemma add_result_hides_commit :
  (AddDestination demo_client Live "demo" dest_a demo_world).1
  = (AddDestination demo_client Live "demo" dest_b demo_world).1
  /\ writes (calls (AddDestination demo_client Live "demo" dest_a demo_world).2) = []
  /\ length (writes (calls (AddDestination demo_client Live "demo" dest_b
                              demo_world).2)) = 1%nat.
Proof. repeat split; reflexivity. Qed.

(** ** The audit trail *)

Lemma mutate_and_audit_logged {St} `{DynamicInterface St} {Lg}
  (audit_Log : Entry -> Lg -> option error * Lg)
  (mutate : Context -> string -> Destination -> M St (option error))
  (action project : string) (req : DestinationRequest) (success : Response)
  (r : Request) (sv : Service St Lg) :
  logged (mutate_and_audit audit_Log mutate action project req success r sv).2
  = logged sv
    ++ match (mutate (req_ctx r) project (destination_of req) (cluster sv)).1 with
       | None => [entry_of action project req r]
       | Some _ => []
       end.
Proof.
  unfold mutate_and_audit.
  destruct (mutate (req_ctx r) project (destination_of req) (cluster sv))
    as [[err|] w']; simpl.
  - rewrite app_nil_r. by destruct (IsConflict err).
  - by destruct (audit_Log _ _).
Qed.

(** The entries a mutation handler passes to [Log], whatever the logger:
    one exactly when the request decodes, passes validation and the client
    returns a nil error; none otherwise. *)
Lemma logged_entries_follow_nil_error {St} `{DynamicInterface St} {Lg}
  (audit_Log : Entry -> Lg -> option error * Lg) (client : Client) (h : Handler)
  (r : Request) (sv : Service St Lg) :
  logged (run_handler audit_Log client h r sv).2
  = logged sv ++ audited client h r sv.
Proof.
  unfold audited.
  destruct h; simpl;
    unfold handlers.AddDestination, handlers.RemoveDestination,
      handlers_body.AddDestination, handlers_body.RemoveDestination,
      handlers.validateDestinationRequest,
      handlers_body.validateDestinationRequest;
    repeat match goal with
      | |- context [validateProjectName ?p] =>
          destruct (validateProjectName p); simpl
      | |- context [req_body ?x] => destruct (req_body x); simpl
      | |- context [validate_fields ?x] => destruct (validate_fields x); simpl
      end;
    rewrite ?app_nil_r; try done;
    apply mutate_and_audit_logged.
Qed.

(** C8 as stated fails, both ways. Adding a destination that the record
    already has sends no patch, and an audit record is written all the
    same. Adding a new destination while the audit file cannot be written
    commits the patch and answers 201, and no audit record is written. *)
Lemma audit_written_for_noop :
  let noop :=
    handlers.AddDestination audit.Log demo_client demo_request logging_service in
  let committed :=
    handlers.AddDestination audit.Log demo_client new_request full_disk_service in
  (status noop.1 = 201
   /\ writes (calls (cluster noop.2)) = []
   /\ audit.file (logger noop.2)
      = [JObj [("timestamp", JStr "2024-01-15T10:30:00Z");
               ("action", JStr "add");
               ("project", JStr "demo");
               ("server", JStr "a");
               ("namespace", JStr "ns1");
               ("description", JStr "staging rollout");
               ("user_agent", JStr "curl/8.5.0");
               ("remote_addr", JStr "10.0.0.7:51234")]])
  /\ (status committed.1 = 201
      /\ length (writes (calls (cluster committed.2))) = 1%nat
      /\ audit.file (logger committed.2) = []).
Proof. repeat split; reflexivity. Qed.

(** ** Cancellation *)




(** ** Listing projects *)

Lemma project_loop_elems items acc :
  elems (fold_left (fun projects item => append projects (project_of_item item))
           items acc)
  = elems acc ++ map project_of_item items.
Proof.
  revert acc. induction items as [|item items IH]; intros acc; simpl.
  - by rewrite app_nil_r.
  - rewrite IH. simpl. by rewrite <- app_assoc.
Qed.

(** C10. When [ListProjects] succeeds, its summaries are those of the listed
    items in order; in each one the count is the length of the destinations
    and the destinations are not nil. An item from which no destination can
    be extracted (the extraction fails, or gives nothing) has the empty
    sequence and count zero. *)
Theorem list_projects_count_is_length {St} `{DynamicInterface St} (c : Client)
  (ctx : Context) (w w' : World St) (ps : slice Project) :
  ListProjects c ctx w = (Ok ps, w') ->
  exists items,
    (dyn_List ctx (namespace c) (backend w)).1 = Ok items
    /\ elems ps = map project_of_item items
    /\ Forall (fun p => DestinationCount p = len (Destinations p)
                        /\ Destinations p <> None) (elems ps)
    /\ (forall item,
          (forall ds, extractDestinations item = Ok ds -> elems ds = []) ->
          Destinations (project_of_item item) = Some []
          /\ DestinationCount (project_of_item item) = 0).
Proof.
  unfold ListProjects, bind, List, ret.
  destruct (dyn_List ctx (namespace c) (backend w)) as [[items|err] b];
    simpl; [|done].
  intros [= <- <-]. exists items. split; [done|].
  rewrite project_loop_elems. simpl. split; [done|]. split.
  - apply Forall_fmap, Forall_forall. intros item _. unfold project_of_item. simpl.
    split; [done|]. by destruct (extractDestinations item) as [[l|]|].
  - intros item Hnone. unfold project_of_item. simpl.
    destruct (extractDestinations item) as [[l|]|] eqn:E; try done.
    specialize (Hnone _ eq_refl). simpl in Hnone. by subst l.
Qed.

Lemma list_projects_count_is_length_witness :
  exists ps w',
    ListProjects demo_client Live demo_world = (Ok ps, w')
    /\ Forall (fun p => DestinationCount p = len (Destinations p)
                        /\ Destinations p <> None) (elems ps)
    /\ elems ps = [{| ProjectName := "demo"; DestinationCount := 1;
                      Destinations := Some [dest_a] |}].
Proof.
  assert (Hrun : ListProjects demo_client Live demo_world
                 = (Ok (Some [{| ProjectName := "demo"; DestinationCount := 1;
                                 Destinations := Some [dest_a] |}]),
                    mkWorld demo_server [ListCall "argocd"])) by reflexivity.
  eexists _, _. split; [exact Hrun|].
  destruct (list_projects_count_is_length demo_client Live demo_world _ _ Hrun)
    as (items & _ & _ & Hcount & _).
  split; [exact Hcount|reflexivity].
Defined.

(** * Further properties of the code *)

(** ** The client *)

(** X1. Round trip: a record whose [spec.destinations] is what
    [json.Marshal] writes for a list of destinations is read back as that
    list, an empty name included. *)
Theorem marshalled_destinations_read_back (project spec : object)
  (l : list Destination) :
  obj_get "spec" project = Some (JObj spec) ->
  obj_get "destinations" spec = Some (marshal_destinations (Some l)) ->
  exists ds, extractDestinations project = Ok ds /\ elems ds = l.
Proof.
  intros Hspec Hdest. rewrite extract_shape, Hspec, Hdest. simpl.
  eexists. split; [done|]. rewrite extract_loop_elems. simpl.
  apply extract_marshalled.
Qed.

Lemma marshalled_destinations_read_back_witness :
  exists ds,
    extractDestinations
      [("spec", JObj [("destinations",
                       marshal_destinations
                         (Some [dest_a; {| Server := "c"; Namespace := "ns3";
                                           Name := "third" |}]))])]
    = Ok ds
    /\ elems ds = [dest_a; {| Server := "c"; Namespace := "ns3"; Name := "third" |}].
Proof.
  apply (marshalled_destinations_read_back _
           [("destinations",
             marshal_destinations
               (Some [dest_a; {| Server := "c"; Namespace := "ns3";
                                 Name := "third" |}]))]);
    reflexivity.
Defined.

Lemma writes_snoc_get cs ns name : writes (cs ++ [GetCall ns name]) = writes cs.
Proof.
  rewrite writes_app. unfold writes at 2. rewrite filter_cons, filter_nil.
  rewrite decide_False by done. by rewrite app_nil_r.
Qed.

Lemma mutation_fetch_failed {St} `{DynamicInterface St} (c : Client) (m : Mutation)
  ctx name dest (w : World St) e :
  (GetDestinations c ctx name w).1 = Err e ->
  run_mutation c m ctx name dest w = (Some e, (GetDestinations c ctx name w).2).
Proof.
  intros Hfetch. destruct m; simpl;
    unfold AddDestination, RemoveDestination, bind;
    destruct (GetDestinations c ctx name w) as [[[ds rv]|e'] w1];
    simpl in Hfetch; by inversion Hfetch.
Qed.

(** X2. When the fetch fails, Add and Remove return the fetch's error as it
    is and send no patch: the only request is the Get. *)
Theorem mutation_propagates_fetch_error {St} `{DynamicInterface St} (c : Client)
  (m : Mutation) (ctx : Context) (name : string) (dest : Destination)
  (w : World St) (e : error) :
  (GetDestinations c ctx name w).1 = Err e ->
  (run_mutation c m ctx name dest w).1 = Some e
  /\ calls (run_mutation c m ctx name dest w).2
     = calls w ++ [GetCall (namespace c) name]
  /\ writes (calls (run_mutation c m ctx name dest w).2) = writes (calls w).
Proof.
  intros Hfetch. rewrite (mutation_fetch_failed c m ctx name dest w e Hfetch).
  rewrite GetDestinations_run. simpl. repeat split. apply writes_snoc_get.
Qed.

Lemma mutation_propagates_fetch_error_witness :
  (run_mutation demo_client Remove Live "absent" dest_a demo_world).1
  = Some (StatusError "NotFound" 404)
  /\ (run_mutation demo_client Add Live "demo" dest_a malformed_world).1
     = Some (Errorf "failed to get destinations"
               (AccessorError ["destinations"] "[]interface{}")).
Proof.
  split.
  - apply (mutation_propagates_fetch_error demo_client Remove Live "absent"
             dest_a demo_world). reflexivity.
  - apply (mutation_propagates_fetch_error demo_client Add Live "demo"
             dest_a malformed_world). reflexivity.
Defined.

(** X3. Whatever the store answers, one Add or Remove makes one Get and
    then at most one patch, a merge patch on the same record: it never
    retries and never sends anything else. *)
Theorem mutation_round_trips {St} `{DynamicInterface St} (c : Client)
  (m : Mutation) (ctx : Context) (name : string) (dest : Destination)
  (w : World St) :
  calls (run_mutation c m ctx name dest w).2
  = calls w ++ [GetCall (namespace c) name]
  \/ exists body,
      calls (run_mutation c m ctx name dest w).2
      = calls w ++ [GetCall (namespace c) name;
                    PatchCall (namespace c) name MergePatchType body].
Proof.
  destruct (GetDestinations c ctx name w) as [[[ds rv]|e] w1] eqn:Hfetch.
  - pose proof Hfetch as Hrun. rewrite GetDestinations_run in Hrun.
    destruct (dyn_Get ctx (namespace c) name (backend w)) as [[project|e] b] eqn:Hget;
      simpl in Hrun; [|discriminate].
    destruct (extractDestinations project) as [ds'|e] eqn:Hext; [|discriminate].
    assert (ds' = ds) as -> by congruence. clear Hrun Hfetch w1 rv.
    destruct m; simpl.
    + destruct (present dest (elems ds)) eqn:Hp.
      * left. by rewrite (add_present_run c ctx name dest w project b ds Hget Hext Hp).
      * right. eexists.
        by rewrite (add_absent_run c ctx name dest w project b ds Hget Hext Hp).
    + rewrite (remove_run c ctx name dest w project b ds Hget Hext).
      destruct (present dest (elems ds)).
      * right. eexists. rewrite patchDestinations_run. simpl.
        by rewrite <- app_assoc.
      * by left.
  - left. assert (Hf : (GetDestinations c ctx name w).1 = Err e) by by rewrite Hfetch.
    rewrite (mutation_fetch_failed c m ctx name dest w e Hf).
    by rewrite GetDestinations_run.
Qed.

(** ** The client against the reference server *)

Lemma without_app dest l1 l2 :
  without dest (l1 ++ l2) = without dest l1 ++ without dest l2.
Proof. unfold without. apply List.filter_app. Qed.

Lemma without_self dest : without dest [dest] = [].
Proof.
  unfold without. simpl.
  assert (destinationsEqual dest dest = true) as -> by by apply destinationsEqual_eq.
  done.
Qed.

Lemma stored_resource_version v o : GetResourceVersion (with_resource_version v o) = v.
Proof.
  unfold GetResourceVersion, getNestedString, NestedString, NestedFieldNoCopy,
    with_resource_version. simpl.
  rewrite obj_get_set_eq. by rewrite obj_get_set_eq.
Qed.

Lemma fetch_ok_inv c ctx name (w : World ApiServer) ds rv :
  (GetDestinations c ctx name w).1 = Ok (ds, rv) ->
  exists project,
    refusal ctx (backend w) = None
    /\ objects (backend w) !! (namespace c, name) = Some project
    /\ extractDestinations project = Ok ds
    /\ rv = GetResourceVersion project
    /\ (GetDestinations c ctx name w).2
       = mkWorld (backend w) (calls w ++ [GetCall (namespace c) name]).
Proof.
  rewrite GetDestinations_run. simpl.
  destruct (api_Get ctx (namespace c) name (backend w)) as [[project|e] b] eqn:Hget;
    simpl; [|done].
  destruct (api_Get_ok _ _ _ _ _ _ Hget) as (Href & Hobj & ->).
  destruct (extractDestinations project) as [ds'|e] eqn:Hext; [|done].
  intros [= -> <-]. by exists project.
Qed.

Lemma fetch_found c ctx name (w : World ApiServer) project ds :
  refusal ctx (backend w) = None ->
  objects (backend w) !! (namespace c, name) = Some project ->
  extractDestinations project = Ok ds ->
  (GetDestinations c ctx name w).1 = Ok (ds, GetResourceVersion project).
Proof.
  intros Href Hobj Hext. rewrite GetDestinations_run. simpl.
  rewrite (api_Get_found ctx (namespace c) name (backend w) project Href Hobj).
  simpl. by rewrite Hext.
Qed.

(** What a fetch shows after a mutation that returned nil. *)
Lemma mutation_outcome c m ctx name dest (w w1 : World ApiServer) :
  run_mutation c m ctx name dest w = (None, w1) ->
  exists ds rv ds' rv',
    (GetDestinations c ctx name w).1 = Ok (ds, rv)
    /\ (GetDestinations c ctx name w1).1 = Ok (ds', rv')
    /\ elems ds'
       = match m with
         | Add => if present dest (elems ds) then elems ds else elems ds ++ [dest]
         | Remove => without dest (elems ds)
         end.
Proof.
  intros Hrun.
  destruct (GetDestinations c ctx name w).1 as [[ds rv]|e] eqn:Hfetch.
  2:{ rewrite (mutation_fetch_failed c m ctx name dest w e Hfetch) in Hrun.
      discriminate. }
  destruct (fetch_ok_inv c ctx name w ds rv Hfetch)
    as (project & Href & Hobj & Hext & -> & _).
  assert (Hget : dyn_Get ctx (namespace c) name (backend w) = (Ok project, backend w))
    by by apply (api_Get_found ctx).
  assert (Hsame : forall w', backend w' = backend w ->
            (GetDestinations c ctx name w').1 = Ok (ds, GetResourceVersion project)).
  { intros w' Hb. apply fetch_found; by rewrite ?Hb. }
  assert (Hnew : forall nd w',
            backend w'
            = mkApiServer
                (<[(namespace c, name) :=
                     with_resource_version (pretty (revision (backend w) + 1)%N)
                       (patched project nd (GetResourceVersion project))]>
                   (objects (backend w)))
                (revision (backend w) + 1)%N (fault (backend w)) ->
            exists ds' rv',
              (GetDestinations c ctx name w').1 = Ok (ds', rv')
              /\ elems ds' = elems nd).
  { intros nd w' Hb.
    destruct (stored_extract (pretty (revision (backend w) + 1)%N) project nd
                (GetResourceVersion project)) as (ds' & Hext' & Hel).
    exists ds'. eexists. split; [|exact Hel].
    apply fetch_found;
      [rewrite Hb; by rewrite refusal_after_write
      |rewrite Hb; apply lookup_insert_eq
      |exact Hext']. }
  exists ds, (GetResourceVersion project).
  destruct m; simpl in Hrun |- *.
  - destruct (present dest (elems ds)) eqn:Hp.
    + rewrite (add_present_run c ctx name dest w project (backend w) ds Hget Hext Hp)
        in Hrun.
      injection Hrun as <-. exists ds. eexists. split; [done|]. split; [|done].
      by apply Hsame.
    + rewrite (add_absent_run c ctx name dest w project (backend w) ds Hget Hext Hp)
        in Hrun.
      simpl in Hrun. rewrite (api_Patch_document _ _ _ _ _ _ _ Href Hobj) in Hrun.
      destruct (String.eqb _ _); simpl in Hrun; [|discriminate].
      injection Hrun as Hw1.
      destruct (Hnew (Some (elems ds ++ [dest])) w1) as (ds' & rv' & Hf & Hel);
        [by rewrite <- Hw1|].
      exists ds', rv'. by split; [|split].
  - rewrite (remove_run c ctx name dest w project (backend w) ds Hget Hext) in Hrun.
    destruct (present dest (elems ds)) eqn:Hp.
    + rewrite patchDestinations_run in Hrun. simpl in Hrun.
      rewrite (api_Patch_document _ _ _ _ _ _ _ Href Hobj) in Hrun.
      destruct (String.eqb _ _); simpl in Hrun; [|discriminate].
      injection Hrun as Hw1.
      destruct (Hnew (kept_slice (without dest (elems ds))) w1)
        as (ds' & rv' & Hf & Hel); [by rewrite <- Hw1|].
      exists ds', rv'. split; [done|]. split; [exact Hf|].
      rewrite Hel. unfold kept_slice. by destruct (without dest (elems ds)).
    + injection Hrun as <-. exists ds. eexists. split; [done|]. split.
      * by apply Hsame.
      * symmetry. by apply without_all.
Qed.

(** X4. On the reference server, after an Add that returned nil a fetch
    shows the destinations fetched before with the new one appended at the
    end, or unchanged when it was already among them; in both cases the
    destination is there. *)
Theorem add_then_fetch (c : Client) (ctx : Context) (name : string)
  (dest : Destination) (w w1 : World ApiServer) :
  AddDestination c ctx name dest w = (None, w1) ->
  exists ds rv ds' rv',
    (GetDestinations c ctx name w).1 = Ok (ds, rv)
    /\ (GetDestinations c ctx name w1).1 = Ok (ds', rv')
    /\ elems ds' = (if present dest (elems ds) then elems ds else elems ds ++ [dest])
    /\ dest ∈ elems ds'.
Proof.
  intros Hrun.
  destruct (mutation_outcome c Add ctx name dest w w1 Hrun)
    as (ds & rv & ds' & rv' & Hf & Hf' & Hel).
  exists ds, rv, ds', rv'. split; [done|]. split; [done|]. split; [done|].
  rewrite Hel. destruct (present dest (elems ds)) eqn:Hp.
  - by apply present_elem_of.
  - set_solver.
Qed.

Lemma add_then_fetch_witness :
  exists ds' rv',
    (GetDestinations demo_client Live "demo"
       (AddDestination demo_client Live "demo" dest_b demo_world).2).1
    = Ok (ds', rv')
    /\ elems ds' = [dest_a; dest_b].
Proof.
  destruct (add_then_fetch demo_client Live "demo" dest_b demo_world
              (AddDestination demo_client Live "demo" dest_b demo_world).2)
    as (ds & rv & ds' & rv' & Hf & Hf' & Hel & _); [reflexivity|].
  exists ds', rv'. split; [exact Hf'|].
  rewrite Hel. injection Hf as <- _. reflexivity.
Defined.

(** X5. On the reference server, after a Remove that returned nil a fetch
    shows the destinations fetched before without every occurrence of the
    removed one, the others in their order. *)
Theorem remove_then_fetch (c : Client) (ctx : Context) (name : string)
  (dest : Destination) (w w1 : World ApiServer) :
  RemoveDestination c ctx name dest w = (None, w1) ->
  exists ds rv ds' rv',
    (GetDestinations c ctx name w).1 = Ok (ds, rv)
    /\ (GetDestinations c ctx name w1).1 = Ok (ds', rv')
    /\ elems ds' = without dest (elems ds)
    /\ dest ∉ elems ds'.
Proof.
  intros Hrun.
  destruct (mutation_outcome c Remove ctx name dest w w1 Hrun)
    as (ds & rv & ds' & rv' & Hf & Hf' & Hel).
  exists ds, rv, ds', rv'. split; [done|]. split; [done|]. split; [done|].
  rewrite Hel. intros Hin. apply present_elem_of in Hin.
  by rewrite present_without in Hin.
Qed.

Lemma remove_then_fetch_witness :
  exists ds' rv',
    (GetDestinations demo_client Live "demo"
       (RemoveDestination demo_client Live "demo" dest_a demo_world).2).1
    = Ok (ds', rv')
    /\ elems ds' = [].
Proof.
  destruct (remove_then_fetch demo_client Live "demo" dest_a demo_world
              (RemoveDestination demo_client Live "demo" dest_a demo_world).2)
    as (ds & rv & ds' & rv' & Hf & Hf' & Hel & _); [reflexivity|].
  exists ds', rv'. split; [exact Hf'|].
  rewrite Hel. injection Hf as <- _. reflexivity.
Defined.

(** X6. On the reference server, adding a destination that was not there
    and then removing it gives back the destinations fetched at the start,
    in their order. *)
Theorem add_then_remove_restores (c : Client) (ctx : Context) (name : string)
  (dest : Destination) (w w1 w2 : World ApiServer) (ds : slice Destination)
  (rv : string) :
  (GetDestinations c ctx name w).1 = Ok (ds, rv) ->
  dest ∉ elems ds ->
  AddDestination c ctx name dest w = (None, w1) ->
  RemoveDestination c ctx name dest w1 = (None, w2) ->
  exists ds2 rv2,
    (GetDestinations c ctx name w2).1 = Ok (ds2, rv2) /\ elems ds2 = elems ds.
Proof.
  intros Hfetch Hnin Hadd Hrem.
  destruct (mutation_outcome c Add ctx name dest w w1 Hadd)
    as (ds0 & rv0 & ds1 & rv1 & Hf0 & Hf1 & Hel1).
  destruct (mutation_outcome c Remove ctx name dest w1 w2 Hrem)
    as (ds1' & rv1' & ds2 & rv2 & Hf1' & Hf2 & Hel2).
  assert (ds0 = ds) as -> by congruence.
  assert (ds1' = ds1) as -> by congruence.
  exists ds2, rv2. split; [done|].
  assert (Hp : present dest (elems ds) = false).
  { destruct (present dest (elems ds)) eqn:E; [|done].
    by apply present_elem_of in E. }
  rewrite Hel2, Hel1, Hp, without_app, without_self, app_nil_r.
  by apply without_all.
Qed.

Lemma add_then_remove_restores_witness :
  exists ds2 rv2,
    (GetDestinations demo_client Live "demo"
       (RemoveDestination demo_client Live "demo" dest_b
          (AddDestination demo_client Live "demo" dest_b demo_world).2).2).1
    = Ok (ds2, rv2)
    /\ elems ds2 = [dest_a].
Proof.
  apply (add_then_remove_restores demo_client Live "demo" dest_b demo_world
           (AddDestination demo_client Live "demo" dest_b demo_world).2
           _ (Some [dest_a]) "v1").
  - reflexivity.
  - intros Hin. apply present_elem_of in Hin. discriminate Hin.
  - reflexivity.
  - reflexivity.
Defined.

(** X7. On the reference server, removing a destination and then adding it
    leaves it exactly once, at the end, after the other destinations in
    their order. *)
Theorem remove_then_add_moves_last (c : Client) (ctx : Context) (name : string)
  (dest : Destination) (w w1 w2 : World ApiServer) (ds : slice Destination)
  (rv : string) :
  (GetDestinations c ctx name w).1 = Ok (ds, rv) ->
  RemoveDestination c ctx name dest w = (None, w1) ->
  AddDestination c ctx name dest w1 = (None, w2) ->
  exists ds2 rv2,
    (GetDestinations c ctx name w2).1 = Ok (ds2, rv2)
    /\ elems ds2 = without dest (elems ds) ++ [dest].
Proof.
  intros Hfetch Hrem Hadd.
  destruct (mutation_outcome c Remove ctx name dest w w1 Hrem)
    as (ds0 & rv0 & ds1 & rv1 & Hf0 & Hf1 & Hel1).
  destruct (mutation_outcome c Add ctx name dest w1 w2 Hadd)
    as (ds1' & rv1' & ds2 & rv2 & Hf1' & Hf2 & Hel2).
  assert (ds0 = ds) as -> by congruence.
  assert (ds1' = ds1) as -> by congruence.
  exists ds2, rv2. split; [done|].
  by rewrite Hel2, Hel1, present_without.
Qed.

Lemma remove_then_add_moves_last_witness :
  exists ds2 rv2,
    (GetDestinations demo_client Live "demo"
       (AddDestination demo_client Live "demo" dest_a
          (RemoveDestination demo_client Live "demo" dest_a demo_world).2).2).1
    = Ok (ds2, rv2)
    /\ elems ds2 = [dest_a].
Proof.
  apply (remove_then_add_moves_last demo_client Live "demo" dest_a demo_world
           (RemoveDestination demo_client Live "demo" dest_a demo_world).2
           _ (Some [dest_a]) "v1"); reflexivity.
Defined.

(** X8. No lost update on the reference server: of two patches built from
    the same fetch, the first is committed and the second, which carries
    the resource version that the first one replaced, is refused with a
    conflict and changes nothing; a fetch then shows the first one's
    destinations. The resource version the server gives to the write is
    assumed new. *)
Theorem stale_patch_is_refused (c : Client) (name : string)
  (nd1 nd2 ds : slice Destination) (rv : string) (w : World ApiServer) :
  (GetDestinations c Live name w).1 = Ok (ds, rv) ->
  rv <> pretty (revision (backend w) + 1)%N ->
  let first := patchDestinations c Live name nd1 rv (GetDestinations c Live name w).2 in
  let second := patchDestinations c Live name nd2 rv first.2 in
  first.1 = None
  /\ second.1 = Some (StatusError "Conflict" 409)
  /\ backend second.2 = backend first.2
  /\ exists ds' rv',
      (GetDestinations c Live name second.2).1 = Ok (ds', rv')
      /\ elems ds' = elems nd1.
Proof.
  intros Hfetch Hfresh first second.
  destruct (fetch_ok_inv c Live name w ds rv Hfetch)
    as (project & Href & Hobj & Hext & -> & Hw).
  assert (Hfirst : first
            = (None,
               mkWorld
                 (mkApiServer
                    (<[(namespace c, name) :=
                         with_resource_version (pretty (revision (backend w) + 1)%N)
                           (patched project nd1 (GetResourceVersion project))]>
                       (objects (backend w)))
                    (revision (backend w) + 1)%N (fault (backend w)))
                 (calls w ++ [GetCall (namespace c) name]
                  ++ [PatchCall (namespace c) name MergePatchType
                        (patch_document nd1 (GetResourceVersion project))]))).
  { unfold first. rewrite Hw, patchDestinations_run. simpl.
    rewrite (api_Patch_document _ _ _ _ _ _ _ Href Hobj).
    rewrite String.eqb_refl. simpl. by rewrite <- app_assoc. }
  assert (Hsecond : second = (Some (StatusError "Conflict" 409),
                              mkWorld (backend first.2)
                                (calls first.2
                                 ++ [PatchCall (namespace c) name MergePatchType
                                       (patch_document nd2 (GetResourceVersion project))]))).
  { unfold second. rewrite patchDestinations_run. rewrite Hfirst. simpl.
    erewrite api_Patch_document;
      [|by rewrite refusal_after_write|apply lookup_insert_eq].
    rewrite stored_resource_version.
    apply String.eqb_neq in Hfresh. by rewrite Hfresh. }
  rewrite Hsecond. simpl. rewrite Hfirst. simpl.
  split; [done|]. split; [done|]. split; [done|].
  destruct (stored_extract (pretty (revision (backend w) + 1)%N) project nd1
              (GetResourceVersion project)) as (ds' & Hext' & Hel).
  exists ds'. eexists. split; [|exact Hel].
  apply fetch_found; simpl;
    [exact Href|apply lookup_insert_eq|exact Hext'].
Qed.

Lemma stale_patch_is_refused_witness :
  let fetched := (GetDestinations demo_client Live "demo" demo_world).2 in
  let first :=
    patchDestinations demo_client Live "demo" (Some [dest_a; dest_b]) "v1" fetched in
  (patchDestinations demo_client Live "demo"
     (Some [dest_a; {| Server := "c"; Namespace := "ns3"; Name := "" |}]) "v1"
     first.2).1
  = Some (StatusError "Conflict" 409).
Proof.
  intros fetched first.
  destruct (stale_patch_is_refused demo_client "demo" (Some [dest_a; dest_b])
              (Some [dest_a; {| Server := "c"; Namespace := "ns3"; Name := "" |}])
              (Some [dest_a]) "v1" demo_world)
    as (_ & Hconflict & _); [reflexivity|discriminate|exact Hconflict].
Defined.

(** ** The handlers *)

Lemma validateProjectName_some project resp :
  validateProjectName project = Some resp -> status resp = 400.
Proof.
  unfold validateProjectName. destruct (String.eqb project ""); [by intros [= <-]|].
  destruct (negb _); [by intros [= <-]|done].
Qed.

Lemma validateProjectName_none project :
  validateProjectName project = None ->
  project <> "" /\ all_name_chars project = true.
Proof.
  unfold validateProjectName, projectNameRegex_MatchString.
  destruct (String.eqb project "") eqn:E; [done|]. simpl.
  destruct (all_name_chars project); [|done].
  intros _. split; [|done]. by apply String.eqb_neq.
Qed.

Lemma validate_fields_some req resp :
  validate_fields req = Some resp -> status resp = 400.
Proof.
  unfold validate_fields.
  repeat match goal with
    | |- context [String.eqb ?a ?b] => destruct (String.eqb a b)
    end; by intros [= <-].
Qed.

Lemma validate_fields_none req :
  validate_fields req = None ->
  ReqServer req <> "" /\ ReqNamespace req <> "" /\ ReqServer req <> "*"
  /\ ReqNamespace req <> "*" /\ ReqDescription req <> "".
Proof.
  unfold validate_fields.
  destruct (String.eqb (ReqServer req) "") eqn:E1; [done|].
  destruct (String.eqb (ReqNamespace req) "") eqn:E2; [done|].
  destruct (String.eqb (ReqServer req) "*") eqn:E3; [done|].
  destruct (String.eqb (ReqNamespace req) "*") eqn:E4; [done|].
  destruct (String.eqb (ReqDescription req) "") eqn:E5; [done|].
  intros _. by rewrite <- !String.eqb_neq.
Qed.

Ltac unfold_handlers :=
  unfold run_handler, handlers.AddDestination, handlers.RemoveDestination,
    handlers_body.AddDestination, handlers_body.RemoveDestination,
    handlers.validateDestinationRequest,
    handlers_body.validateDestinationRequest.

(** A request that does not pass validation is answered 400 and nothing
    else happens. *)
Lemma invalid_request_refused {St} `{DynamicInterface St} {Lg}
  (audit_Log : Entry -> Lg -> option error * Lg) (client : Client) (h : Handler)
  (r : Request) (sv : Service St Lg) :
  request_valid h r = false ->
  (run_handler audit_Log client h r sv).2 = sv
  /\ status (run_handler audit_Log client h r sv).1 = 400.
Proof.
  unfold request_valid. intros Hinv.
  destruct h; unfold_handlers; simpl in *;
    destruct (req_body r) as [req|];
    repeat match goal with
      | |- context [validateProjectName ?p] =>
          let E := fresh "E" in
          destruct (validateProjectName p) eqn:E; simpl in *;
          [apply validateProjectName_some in E|]
      | |- context [validate_fields ?x] =>
          let E := fresh "E" in
          destruct (validate_fields x) eqn:E; simpl in *;
          [apply validate_fields_some in E|]
      end; try done.
Qed.

(** A request that passes validation reaches the client. *)
Lemma valid_request_run {St} `{DynamicInterface St} {Lg}
  (audit_Log : Entry -> Lg -> option error * Lg) (client : Client) (h : Handler)
  (r : Request) (sv : Service St Lg) (req : DestinationRequest) :
  req_body r = Some req ->
  request_valid h r = true ->
  run_handler audit_Log client h r sv
  = mutate_and_audit audit_Log (run_mutation client (handler_mutation h))
      (handler_action h) (handler_project h r req) req (success_response h req)
      r sv.
Proof.
  unfold request_valid. intros Hbody Hval. rewrite Hbody in Hval.
  apply andb_true_iff in Hval as [Hp Hf].
  destruct h; unfold_handlers; simpl in *; rewrite Hbody;
    destruct (validateProjectName _); try done;
    destruct (validate_fields req); done.
Qed.

(** X9. The validation gate: a mutation handler that answers anything but
    400, or that changes anything (a request to the cluster, an audit
    entry), was given a body that decodes, a non-empty project name made of
    letters, digits, dashes and underscores, a server and a namespace that
    are neither empty nor the wildcard, and a non-empty description. *)
Theorem handlers_act_only_on_valid_requests {St} `{DynamicInterface St} {Lg}
  (audit_Log : Entry -> Lg -> option error * Lg) (client : Client) (h : Handler)
  (r : Request) (sv : Service St Lg) :
  (run_handler audit_Log client h r sv).2 <> sv
  \/ status (run_handler audit_Log client h r sv).1 <> 400 ->
  exists req,
    req_body r = Some req
    /\ handler_project h r req <> ""
    /\ all_name_chars (handler_project h r req) = true
    /\ ReqServer req <> "" /\ ReqNamespace req <> ""
    /\ ReqServer req <> "*" /\ ReqNamespace req <> "*"
    /\ ReqDescription req <> "".
Proof.
  intros Hacted. destruct (request_valid h r) eqn:Hval.
  - unfold request_valid in Hval. destruct (req_body r) as [req|]; [|done].
    apply andb_true_iff in Hval as [Hp Hf]. exists req. split; [done|].
    destruct (validateProjectName (handler_project h r req)) eqn:Ep; [done|].
    destruct (validate_fields req) eqn:Ef; [done|].
    apply validateProjectName_none in Ep as [? ?].
    apply validate_fields_none in Ef. tauto.
  - destruct (invalid_request_refused audit_Log client h r sv Hval) as [Hsv Hst].
    destruct Hacted; done.
Qed.

Lemma handlers_act_only_on_valid_requests_witness :
  (run_handler quiet_Log demo_client UrlAdd wildcard_request demo_service).2
  = demo_service
  /\ exists req,
      req_body new_request = Some req /\ ReqNamespace req <> "*".
Proof.
  split; [reflexivity|].
  destruct (handlers_act_only_on_valid_requests quiet_Log demo_client UrlAdd
              new_request demo_service)
    as (req & Hbody & _ & _ & _ & _ & _ & Hns & _).
  - right. vm_compute. discriminate.
  - by exists req.
Defined.

Lemma extract_error_unclassified project e :
  extractDestinations project = Err e ->
  IsConflict e = false /\ IsNotFound e = false /\ IsForbidden e = false.
Proof.
  rewrite extract_shape.
  destruct (obj_get "spec" project) as [[| | | |xs|spec]|]; try done;
    try (intros [= <-]; done).
  destruct (obj_get "destinations" spec) as [[| | | |raw|m]|]; try done;
    intros [= <-]; done.
Qed.

(** X10. A record whose [spec] or [spec.destinations] has the wrong shape
    makes every mutation handler answer 500 "internal server error": no
    patch is sent and no audit entry is written. *)
Theorem malformed_record_is_internal_error {St} `{DynamicInterface St} {Lg}
  (audit_Log : Entry -> Lg -> option error * Lg) (client : Client) (h : Handler)
  (r : Request) (sv : Service St Lg) (req : DestinationRequest)
  (project : object) (b : St) (e : error) :
  req_body r = Some req ->
  request_valid h r = true ->
  dyn_Get (req_ctx r) (namespace client) (handler_project h r req)
    (backend (cluster sv)) = (Ok project, b) ->
  extractDestinations project = Err e ->
  (run_handler audit_Log client h r sv).1
  = writeJSONError StatusInternalServerError "internal server error"
  /\ logged (run_handler audit_Log client h r sv).2 = logged sv
  /\ writes (calls (cluster (run_handler audit_Log client h r sv).2))
     = writes (calls (cluster sv)).
Proof.
  intros Hbody Hval Hget Hext.
  rewrite (valid_request_run audit_Log client h r sv req Hbody Hval).
  unfold mutate_and_audit.
  assert (Hfetch : (GetDestinations client (req_ctx r) (handler_project h r req)
                      (cluster sv)).1 = Err e).
  { rewrite GetDestinations_run, Hget. simpl. by rewrite Hext. }
  rewrite (mutation_fetch_failed client (handler_mutation h) (req_ctx r)
             (handler_project h r req) (destination_of req) (cluster sv) e Hfetch).
  destruct (extract_error_unclassified project e Hext) as (Hc & Hn & Hf).
  rewrite Hc. unfold handleK8sError. rewrite Hn, Hf. simpl.
  split; [done|]. split; [done|].
  rewrite GetDestinations_run. simpl. apply writes_snoc_get.
Qed.

Lemma malformed_record_is_internal_error_witness :
  (run_handler quiet_Log demo_client UrlRemove demo_request malformed_service).1
  = {| status := 500; body := ErrorResponse "internal server error" |}.
Proof.
  destruct (malformed_record_is_internal_error quiet_Log demo_client UrlRemove
              demo_request malformed_service
              {| ReqProject := "demo"; ReqServer := "a"; ReqNamespace := "ns1";
                 ReqName := ""; ReqDescription := "staging rollout" |}
              malformed_project (backend malformed_world)
              (Errorf "failed to get destinations"
                 (AccessorError ["destinations"] "[]interface{}")))
    as (Hresp & _); [reflexivity..|exact Hresp].
Defined.

(** X11. The audit logger cannot hold a mutation back: with any two
    loggers, in any state and whether their writes fail or not, a handler
    gives the same response, leaves the cluster in the same state and
    passes the same entries to [Log]. *)
Theorem response_independent_of_logger {St} `{DynamicInterface St} {Lg1 Lg2}
  (log1 : Entry -> Lg1 -> option error * Lg1)
  (log2 : Entry -> Lg2 -> option error * Lg2) (client : Client) (h : Handler)
  (r : Request) (sv1 : Service St Lg1) (sv2 : Service St Lg2) :
  cluster sv1 = cluster sv2 ->
  logged sv1 = logged sv2 ->
  (run_handler log1 client h r sv1).1 = (run_handler log2 client h r sv2).1
  /\ cluster (run_handler log1 client h r sv1).2
     = cluster (run_handler log2 client h r sv2).2
  /\ logged (run_handler log1 client h r sv1).2
     = logged (run_handler log2 client h r sv2).2.
Proof.
  intros Hc Hl.
  destruct h; unfold_handlers; simpl;
    repeat match goal with
      | |- context [validateProjectName ?p] =>
          destruct (validateProjectName p); simpl
      | |- context [req_body ?x] => destruct (req_body x); simpl
      | |- context [validate_fields ?x] => destruct (validate_fields x); simpl
      end; try done;
    unfold mutate_and_audit; rewrite Hc, Hl;
    match goal with
    | |- context [AddDestination ?c ?ctx ?p ?d ?w] =>
        destruct (AddDestination c ctx p d w) as [[err|] w']
    | |- context [RemoveDestination ?c ?ctx ?p ?d ?w] =>
        destruct (RemoveDestination c ctx p d w) as [[err|] w']
    end; simpl;
    try (destruct (IsConflict err); done);
    destruct (log1 _ _), (log2 _ _); done.
Qed.

Lemma response_independent_of_logger_witness :
  (run_handler audit.Log demo_client UrlAdd new_request full_disk_service).1
  = (run_handler quiet_Log demo_client UrlAdd new_request demo_service).1
  /\ status (run_handler audit.Log demo_client UrlAdd new_request
               full_disk_service).1 = 201.
Proof.
  destruct (response_independent_of_logger audit.Log quiet_Log demo_client UrlAdd
              new_request full_disk_service demo_service)
    as (Hresp & _); [reflexivity..|].
  split; [exact Hresp|reflexivity].
Defined.

(** ** The audit file *)

Lemma mutate_and_audit_file {St} `{DynamicInterface St}
  (mutate : Context -> string -> Destination -> M St (option error))
  (action project : string) (req : DestinationRequest) (success : Response)
  (r : Request) (sv : Service St audit.Logger) :
  let out := mutate_and_audit audit.Log mutate action project req success r sv in
  audit.file (logger out.2)
  = audit.file (logger sv)
    ++ match audit.write_error (logger sv),
             (mutate (req_ctx r) project (destination_of req) (cluster sv)).1 with
       | None, None =>
           [audit.marshal_entry (audit.now (logger sv))
              (entry_of action project req r)]
       | _, _ => []
       end
  /\ audit.now (logger out.2) = audit.now (logger sv)
  /\ audit.write_error (logger out.2) = audit.write_error (logger sv).
Proof.
  intros out. unfold out, mutate_and_audit.
  destruct (mutate (req_ctx r) project (destination_of req) (cluster sv))
    as [[err|] w']; simpl.
  - destruct (IsConflict err); simpl;
      destruct (audit.write_error (logger sv)); by rewrite app_nil_r.
  - unfold audit.Log. destruct (audit.write_error (logger sv)) eqn:E; simpl.
    + by rewrite app_nil_r.
    + done.
Qed.

(** X12. With the logger of [audit/logger.go], the audit file only grows,
    and by one line at most per request: a mutation handler appends the
    marshalled entry, stamped with the logger's clock, exactly when the
    request is valid, the client returns nil and the write succeeds; in
    every other case the file is as it was. *)
Theorem audit_file_appends_one_line {St} `{DynamicInterface St} (client : Client)
  (h : Handler) (r : Request) (sv : Service St audit.Logger) :
  audit.file (logger (run_handler audit.Log client h r sv).2)
  = audit.file (logger sv)
    ++ match audit.write_error (logger sv) with
       | None =>
           map (audit.marshal_entry (audit.now (logger sv)))
               (audited client h r sv)
       | Some _ => []
       end.
Proof.
  destruct (request_valid h r) eqn:Hval.
  - pose proof Hval as Hval'. unfold request_valid in Hval'. unfold audited.
    destruct (req_body r) as [req|] eqn:Hbody; [|done]. rewrite Hval'.
    rewrite (valid_request_run audit.Log client h r sv req Hbody Hval).
    destruct (mutate_and_audit_file (run_mutation client (handler_mutation h))
                (handler_action h) (handler_project h r req) req
                (success_response h req) r sv) as (Hfile & _).
    rewrite Hfile. f_equal.
    destruct (run_mutation client (handler_mutation h) (req_ctx r)
                (handler_project h r req) (destination_of req) (cluster sv)).1;
      by destruct (audit.write_error (logger sv)).
  - destruct (invalid_request_refused audit.Log client h r sv Hval) as [-> _].
    unfold audited. unfold request_valid in Hval.
    destruct (req_body r); [rewrite Hval|];
      destruct (audit.write_error (logger sv)); by rewrite app_nil_r.
Qed.

Lemma marshal_entry_determines (ts ts' : string) (e e' : Entry) :
  entry_written_as_is e ->
  entry_written_as_is e' ->
  audit.marshal_entry ts e = audit.marshal_entry ts' e' ->
  audit.stamp ts e = audit.stamp ts' e'.
Proof.
  destruct e as [t a p s n nm d ua ra], e' as [t' a' p' s' n' nm' d' ua' ra'].
  unfold entry_written_as_is. simpl.
  intros (Ha & Hp & Hs & Hn & Hnm & Hd & Hua & Hra)
         (Ha' & Hp' & Hs' & Hn' & Hnm' & Hd' & Hua' & Hra').
  unfold audit.marshal_entry, audit.marshal, audit.stamp, audit.omitempty. simpl.
  rewrite Ha, Hp, Hs, Hn, Hnm, Hd, Hua, Hra, Ha', Hp', Hs', Hn', Hnm', Hd', Hua', Hra'.
  destruct (String.eqb nm "") eqn:E1, (String.eqb nm' "") eqn:E1',
    (String.eqb ua "") eqn:E2, (String.eqb ua' "") eqn:E2',
    (String.eqb ra "") eqn:E3, (String.eqb ra' "") eqn:E3';
    simpl; intros Heq; simplify_eq;
    rewrite ?String.eqb_eq in *; subst; done.
Qed.

(** X13. For entries whose strings are valid UTF-8, the line written
    determines the record: two entries that differ once stamped, in the
    time or in any field, are written as different lines, the fields left
    out when empty ([name], [user_agent], [remote_addr]) notwithstanding. *)
Theorem distinct_entries_distinct_lines (ts ts' : string) (e e' : Entry) :
  entry_written_as_is e ->
  entry_written_as_is e' ->
  audit.stamp ts e <> audit.stamp ts' e' ->
  audit.marshal_entry ts e <> audit.marshal_entry ts' e'.
Proof.
  intros He He' Hne Heq. apply Hne.
  by apply marshal_entry_determines.
Qed.

(** An unnamed and a named entry are written as different lines; two user
    agents that are not valid UTF-8 are both written as U+FFFD, which is
    why the strings are required to be valid. *)
Lemma distinct_entries_distinct_lines_witness :
  audit.marshal_entry "2024-01-15T10:30:00Z" unnamed_entry
  <> audit.marshal_entry "2024-01-15T10:30:00Z" named_entry
  /\ audit.marshal_entry "2024-01-15T10:30:00Z" (agent_entry 255)
     = audit.marshal_entry "2024-01-15T10:30:00Z" (agent_entry 254).
Proof.
  split; [|reflexivity].
  apply distinct_entries_distinct_lines.
  - repeat split; reflexivity.
  - repeat split; reflexivity.
  - discriminate.
Defined.

(** ** The list handlers *)

(** X14. The handlers that list destinations only read: they send no
    patch and write no audit entry. When they serve a list, the status is
    200, the project name passed validation, and the list is the one just
    fetched for that project, as a list that is never nil. *)
Theorem list_destinations_reads_only {St} `{DynamicInterface St} {Lg}
  (by_body : bool) (client : Client) (r : ListRequest) (sv : Service St Lg) :
  writes (calls (cluster (run_list by_body client r sv).2)) = writes (calls (cluster sv))
  /\ logged (run_list by_body client r sv).2 = logged sv
  /\ (forall st ds,
        (run_list by_body client r sv).1 = Served st ds ->
        st = 200
        /\ exists project fetched rv,
            list_project by_body r = Some project
            /\ validateProjectName project = None
            /\ (GetDestinations client (list_ctx r) project (cluster sv)).1
               = Ok (fetched, rv)
            /\ ds = Some (elems fetched)).
Proof.
  assert (Hnn : forall fetched : slice Destination,
            never_nil fetched = Some (elems fetched)) by by intros [l|].
  assert (Hrun : forall project,
            validateProjectName project = None ->
            let out :=
              let '(res, w) :=
                GetDestinations client (list_ctx r) project (cluster sv) in
              match res with
              | Err err =>
                  (Refused (handleK8sError err project),
                   mkService w (logger sv) (logged sv))
              | Ok (destinations, _) =>
                  (Served StatusOK (never_nil destinations),
                   mkService w (logger sv) (logged sv))
              end in
            writes (calls (cluster out.2)) = writes (calls (cluster sv))
            /\ logged out.2 = logged sv
            /\ (forall st ds,
                  out.1 = Served st ds ->
                  st = 200
                  /\ exists fetched rv,
                      (GetDestinations client (list_ctx r) project (cluster sv)).1
                      = Ok (fetched, rv)
                      /\ ds = Some (elems fetched))).
  { intros project Hv.
    pose proof (GetDestinations_run client (list_ctx r) project (cluster sv)) as Hg.
    destruct (GetDestinations client (list_ctx r) project (cluster sv))
      as [[[fetched rv]|e] w1]; injection Hg as _ ->; simpl;
      rewrite writes_snoc_get; (split; [done|]); (split; [done|]);
      intros st ds Hs; [|done].
    injection Hs as <- <-. split; [done|]. exists fetched, rv. by rewrite Hnn. }
  destruct by_body; unfold run_list, list_project,
    handlers_list.ListDestinations_body, handlers_list.ListDestinations; simpl.
  - destruct (list_body_project r) as [project|]; [|done].
    destruct (validateProjectName project) eqn:Ev; [done|].
    destruct (Hrun project Ev) as (Hw & Hl & Hs).
    split; [exact Hw|]. split; [exact Hl|].
    intros st ds Hserved. destruct (Hs st ds Hserved) as (-> & fetched & rv & Hf & ->).
    split; [done|]. by exists project, fetched, rv.
  - destruct (validateProjectName (list_url_project r)) eqn:Ev; [done|].
    destruct (Hrun (list_url_project r) Ev) as (Hw & Hl & Hs).
    split; [exact Hw|]. split; [exact Hl|].
    intros st ds Hserved. destruct (Hs st ds Hserved) as (-> & fetched & rv & Hf & ->).
    split; [done|]. by exists (list_url_project r), fetched, rv.
Qed.

Lemma list_destinations_reads_only_witness :
  (run_list false demo_client
     {| list_url_project := "demo"; list_body_project := None; list_ctx := Live |}
     demo_service).1
  = Served 200 (Some [dest_a]).
Proof.
  destruct (list_destinations_reads_only false demo_client
              {| list_url_project := "demo"; list_body_project := None;
                 list_ctx := Live |} demo_service)
    as (_ & _ & Hserved).
  destruct (Hserved 200 (Some [dest_a]) eq_refl)
    as (_ & project & fetched & rv & _ & _ & _ & _).
  reflexivity.
Defined.

(** X15. The handler that lists projects answers every failure of the
    listing, a forbidden or not-found one included, with 500 "failed to
    list projects"; when the listing succeeds it serves 200 with the
    summaries as a list that is never nil. It sends no patch. *)
Theorem list_projects_handler_outcomes {St} `{DynamicInterface St} {Lg}
  (client : Client) (ctx : Context) (sv : Service St Lg) :
  (handlers_list.ListProjects client ctx sv).1
  = match (ListProjects client ctx (cluster sv)).1 with
    | Err _ =>
        Refused {| status := 500; body := ErrorResponse "failed to list projects" |}
    | Ok projects => Served 200 (Some (elems projects))
    end
  /\ writes (calls (cluster (handlers_list.ListProjects client ctx sv).2))
     = writes (calls (cluster sv))
  /\ logged (handlers_list.ListProjects client ctx sv).2 = logged sv.
Proof.
  unfold handlers_list.ListProjects, ListProjects, bind, List, ret.
  destruct (dyn_List ctx (namespace client) (backend (cluster sv)))
    as [[items|e] b]; simpl.
  - split; [match goal with |- context [never_nil ?x] => by destruct x end|].
    split; [|done].
    rewrite writes_app. unfold writes at 2. rewrite filter_cons, filter_nil.
    rewrite decide_False by done. by rewrite app_nil_r.
  - split; [done|]. split; [|done].
    rewrite writes_app. unfold writes at 2. rewrite filter_cons, filter_nil.
    rewrite decide_False by done. by rewrite app_nil_r.
Qed.

(** ** The API key and the configuration *)

(** [APIKeyAuth] lets a request through exactly when its key is the
    configured one and is not empty; every other request gets 401 and
    leaves the state as it was. *)
Lemma api_key_admits {R S T : Type} (apiKey : string) (next : R -> S -> T * S)
  (providedKey : string) (r : R) (s : S) :
  match middleware.APIKeyAuth apiKey next providedKey r s with
  | (inr t, s') => providedKey = apiKey /\ apiKey <> "" /\ next r s = (t, s')
  | (inl resp, s') =>
      status resp = 401 /\ s' = s /\ (providedKey = "" \/ providedKey <> apiKey)
  end.
Proof.
  unfold middleware.APIKeyAuth.
  destruct (String.eqb providedKey "") eqn:E1; simpl.
  - apply String.eqb_eq in E1. auto.
  - apply String.eqb_neq in E1.
    destruct (String.eqb providedKey apiKey) eqn:E2; simpl.
    + apply String.eqb_eq in E2. subst apiKey.
      by destruct (next r s) as [t s'].
    + apply String.eqb_neq in E2. auto.
Qed.

(** X16. [main] goes on only when [API_KEY] is set and not empty, and then
    every setting is non-empty: each of the namespace, the port and the
    audit log path is the value of its environment variable when that is
    not empty, and its default ([argocd], [8080],
    [/var/log/audit/audit.log]) otherwise. Behind the middleware of such a
    server a request gets through exactly when its key is the value of
    [API_KEY]. *)
Theorem started_server_settings (getenv : string -> string) (cfg : main.Config) :
  main.config getenv = Some cfg ->
  main.apiKey cfg = getenv "API_KEY"
  /\ main.apiKey cfg <> "" /\ main.namespace cfg <> ""
  /\ main.port cfg <> "" /\ main.auditLogPath cfg <> ""
  /\ (getenv "ARGOCD_NAMESPACE" = "" -> main.namespace cfg = "argocd")
  /\ (getenv "ARGOCD_NAMESPACE" <> "" ->
      main.namespace cfg = getenv "ARGOCD_NAMESPACE")
  /\ (getenv "PORT" = "" -> main.port cfg = "8080")
  /\ (getenv "PORT" <> "" -> main.port cfg = getenv "PORT")
  /\ (getenv "AUDIT_LOG_PATH" = "" ->
      main.auditLogPath cfg = "/var/log/audit/audit.log")
  /\ (getenv "AUDIT_LOG_PATH" <> "" ->
      main.auditLogPath cfg = getenv "AUDIT_LOG_PATH")
  /\ (forall (R S T : Type) (next : R -> S -> T * S) providedKey r s t s',
        middleware.APIKeyAuth (main.apiKey cfg) next providedKey r s = (inr t, s')
        <-> providedKey = getenv "API_KEY" /\ next r s = (t, s')).
Proof.
  unfold main.config. destruct (String.eqb (getenv "API_KEY") "") eqn:Ekey; [done|].
  apply String.eqb_neq in Ekey. intros [= <-]. simpl.
  assert (Hor : forall key fallback,
            fallback <> "" -> main.getenv_or getenv key fallback <> "").
  { intros key fallback Hfb. unfold main.getenv_or.
    destruct (String.eqb (getenv key) "") eqn:E; [done|]. by apply String.eqb_neq. }
  assert (Hdef : forall key fallback,
            getenv key = "" -> main.getenv_or getenv key fallback = fallback).
  { intros key fallback Hk. unfold main.getenv_or. by rewrite Hk. }
  assert (Hkeep : forall key fallback,
            getenv key <> "" -> main.getenv_or getenv key fallback = getenv key).
  { intros key fallback Hk. unfold main.getenv_or.
    apply String.eqb_neq in Hk. by rewrite Hk. }
  split; [done|]. split; [done|].
  split; [by apply Hor|]. split; [by apply Hor|]. split; [by apply Hor|].
  split; [apply Hdef|]. split; [apply Hkeep|].
  split; [apply Hdef|]. split; [apply Hkeep|].
  split; [apply Hdef|]. split; [apply Hkeep|].
  intros R S T next providedKey r s t s'.
  pose proof (api_key_admits (getenv "API_KEY") next providedKey r s) as Hgate.
  split.
  - intros Hrun. rewrite Hrun in Hgate. tauto.
  - intros [-> Hnext]. unfold middleware.APIKeyAuth.
    apply String.eqb_neq in Ekey. rewrite Ekey, String.eqb_refl. simpl.
    by rewrite Hnext.
Qed.

(** With [API_KEY] and [PORT] set: the port is kept, the namespace and the
    audit log path take their defaults, and the key gets a request
    through. *)
Lemma started_server_settings_witness :
  exists cfg,
    main.config demo_env = Some cfg
    /\ main.namespace cfg = "argocd" /\ main.port cfg = "9090"
    /\ main.auditLogPath cfg = "/var/log/audit/audit.log"
    /\ main.apiKey cfg <> ""
    /\ middleware.APIKeyAuth (main.apiKey cfg)
         (fun (r : unit) (s : nat) => (r, S s)) "s3cret" tt 0%nat
       = (inr tt, 1%nat).
Proof.
  eexists. split; [reflexivity|].
  destruct (started_server_settings demo_env _ eq_refl)
    as (_ & Hkey & _ & _ & _ & Hns & _ & _ & Hport & Hpath & _ & Hgate).
  split; [apply Hns; reflexivity|].
  split; [rewrite Hport; [reflexivity|discriminate]|].
  split; [apply Hpath; reflexivity|].
  split; [exact Hkey|].
  apply Hgate. split; reflexivity.
Defined.

(** ** The audit record *)

(** C8, as the code has it. A mutation handler calls [Log] once, with the
    request's action, project, destination fields, description, user agent
    and remote address, exactly when the request decodes, passes validation
    and the client returns a nil error, whether a patch was committed or
    the call changed nothing; in every other case it does not call it. The
    logger stamps the entry with its clock and, when the write succeeds,
    appends it to the audit file as one line, so the file grows by that one
    record; when the write fails the file is as it was, and the response is
    the same. *)
Theorem audit_record_follows_nil_error {St} `{DynamicInterface St}
  (client : Client) (h : Handler) (r : Request) (sv : Service St audit.Logger) :
  let out := run_handler audit.Log client h r sv in
  let nil_error req :=
    (run_mutation client (handler_mutation h) (req_ctx r)
       (handler_project h r req) (destination_of req) (cluster sv)).1 = None in
  let passed := audited client h r sv in
  logged out.2 = logged sv ++ passed
  /\ (forall req,
        req_body r = Some req -> request_valid h r = true -> nil_error req ->
        passed
        = [{| Timestamp := zero_time;
              Action := match handler_mutation h with
                        | Add => "add"
                        | Remove => "remove"
                        end;
              EntryProject := handler_project h r req;
              EntryServer := ReqServer req;
              EntryNamespace := ReqNamespace req;
              EntryName := ReqName req;
              Description := ReqDescription req;
              UserAgent := user_agent r;
              RemoteAddr := remote_addr r |}])
  /\ ((forall req,
         req_body r = Some req -> request_valid h r = true -> ~ nil_error req) ->
      passed = [])
  /\ audit.file (logger out.2)
     = audit.file (logger sv)
       ++ match audit.write_error (logger sv) with
          | Some _ => []
          | None =>
              map (fun e =>
                     JObj
                       ([("timestamp", JStr (audit.now (logger sv)));
                         ("action", JStr (audit.json_string (Action e)));
                         ("project", JStr (audit.json_string (EntryProject e)));
                         ("server", JStr (audit.json_string (EntryServer e)));
                         ("namespace",
                          JStr (audit.json_string (EntryNamespace e)))]
                        ++ (if String.eqb (EntryName e) "" then []
                            else [("name", JStr (audit.json_string (EntryName e)))])
                        ++ [("description",
                             JStr (audit.json_string (Description e)))]
                        ++ (if String.eqb (UserAgent e) "" then []
                            else [("user_agent",
                                   JStr (audit.json_string (UserAgent e)))])
                        ++ (if String.eqb (RemoteAddr e) "" then []
                            else [("remote_addr",
                                   JStr (audit.json_string (RemoteAddr e)))])))
                  passed
          end
  /\ out.1 = (run_handler quiet_Log client h r
                (mkService (cluster sv) tt (logged sv))).1.
Proof.
  intros out nil_error passed. unfold out, nil_error, passed.
  split; [apply logged_entries_follow_nil_error|].
  split.
  { intros req Hbody Hval Hnil. unfold audited. rewrite Hbody.
    unfold request_valid in Hval. rewrite Hbody in Hval. rewrite Hval, Hnil.
    by destruct h. }
  split.
  { intros Hnone. unfold audited.
    destruct (req_body r) as [req|] eqn:Hbody; [|done].
    destruct (no_response _ && no_response _) eqn:Hval; [|done].
    destruct (run_mutation _ _ _ _ _ _).1 eqn:Hrun; [done|].
    exfalso. apply (Hnone req eq_refl); [|exact Hrun].
    unfold request_valid. by rewrite Hbody. }
  split.
  { destruct (request_valid h r) eqn:Hval.
    - pose proof Hval as Hval'. unfold request_valid in Hval'. unfold audited.
      destruct (req_body r) as [req|] eqn:Hbody; [|done]. rewrite Hval'.
      rewrite (valid_request_run audit.Log client h r sv req Hbody Hval).
      destruct (mutate_and_audit_file (run_mutation client (handler_mutation h))
                  (handler_action h) (handler_project h r req) req
                  (success_response h req) r sv) as (Hfile & _).
      rewrite Hfile. f_equal.
      destruct (run_mutation client (handler_mutation h) (req_ctx r)
                  (handler_project h r req) (destination_of req) (cluster sv)).1;
        by destruct (audit.write_error (logger sv)).
    - destruct (invalid_request_refused audit.Log client h r sv Hval) as [-> _].
      unfold audited. unfold request_valid in Hval.
      destruct (req_body r); [rewrite Hval|];
        destruct (audit.write_error (logger sv)); by rewrite app_nil_r. }
  destruct h; unfold_handlers; simpl;
    repeat match goal with
      | |- context [validateProjectName ?p] =>
          destruct (validateProjectName p); simpl
      | |- context [req_body ?x] => destruct (req_body x); simpl
      | |- context [validate_fields ?x] => destruct (validate_fields x); simpl
      end; try done;
    unfold mutate_and_audit; simpl;
    match goal with
    | |- context [AddDestination ?c ?ctx ?p ?d ?w] =>
        destruct (AddDestination c ctx p d w) as [[err|] w']
    | |- context [RemoveDestination ?c ?ctx ?p ?d ?w] =>
        destruct (RemoveDestination c ctx p d w) as [[err|] w']
    end; simpl;
    try (destruct (IsConflict err); done);
    by destruct (audit.Log _ _).
Qed.

(** A Remove that commits, for a client with an odd user agent: one line,
    stamped, the invalid byte written as U+FFFD; and on a full disk the same
    response with no line. *)
Lemma audit_record_follows_nil_error_witness :
  let out := run_handler audit.Log demo_client UrlRemove odd_agent_request
               logging_service in
  status out.1 = 204
  /\ length (writes (calls (cluster out.2))) = 1%nat
  /\ audit.file (logger out.2)
     = [JObj [("timestamp", JStr "2024-01-15T10:30:00Z");
              ("action", JStr "remove");
              ("project", JStr "demo");
              ("server", JStr "a");
              ("namespace", JStr "ns1");
              ("description", JStr "decommissioned");
              ("user_agent",
               JStr (String (ascii_of_N 239) (String (ascii_of_N 191)
                       (String (ascii_of_N 189) "curl"))));
              ("remote_addr", JStr "10.0.0.7:51234")]]
  /\ audit.file
       (logger (run_handler audit.Log demo_client UrlRemove odd_agent_request
                  full_disk_service).2) = []
  /\ (run_handler audit.Log demo_client UrlRemove odd_agent_request
        full_disk_service).1 = out.1.
Proof.
  intros out.
  destruct (audit_record_follows_nil_error demo_client UrlRemove odd_agent_request
              logging_service) as (_ & Hentry & _ & Hfile & _).
  destruct (audit_record_follows_nil_error demo_client UrlRemove odd_agent_request
              full_disk_service) as (_ & _ & _ & Hfull & _).
  split; [reflexivity|]. split; [reflexivity|].
  split.
  { unfold out. rewrite Hfile.
    rewrite (Hentry {| ReqProject := "demo"; ReqServer := "a";
                       ReqNamespace := "ns1"; ReqName := "";
                       ReqDescription := "decommissioned" |});
      reflexivity. }
  split; [rewrite Hfull; reflexivity|reflexivity].
Defined.
